(** * pd-qat: the multi-precision training loop of [train.py]

    A shallow embedding of [main] and [forward] from [src/train.py]: the
    bit-width schedule that both functions parse from the command line, the
    per-batch training and evaluation branches of [forward], and the
    best-checkpoint bookkeeping of [main]'s epoch loop.

    The network, the loss functions, autograd and the optimizer are
    collaborators of the script; they appear as the variables of a section
    and the script's calls to them are threaded through an explicit state. *)

From Stdlib Require Import ZArith Bool Ascii String List Lia Arith.
From Stdlib Require Import Sorted Permutation QArith.
Import ListNotations.

Open Scope Z_scope.
Open Scope list_scope.

(** ** Exceptions and results *)

(** The exception classes the text speaks of.  [ValueError] is what Python's
    [int] raises on a malformed literal, [IndexError] what a list subscript
    out of range raises, [NameError] what reading a name that was never
    bound raises and [ZeroDivisionError] what [i % 0] raises.
    [ConfigurationError] is the class named by the design document; no
    statement of [train.py] raises it. *)
Inductive exn : Type :=
| ValueError
| IndexError
| NameError
| ZeroDivisionError
| ConfigurationError.

Inductive result (A : Type) : Type :=
| Ok (a : A)
| Raise (e : exn).

Arguments Ok {A} a.
Arguments Raise {A} e.

Definition bind {A B : Type} (m : result A) (k : A -> result B) : result B :=
  match m with
  | Ok a => k a
  | Raise e => Raise e
  end.

Notation "x <- m ;; k" := (bind m (fun x => k))
  (at level 61, m at next level, right associativity).

Fixpoint mapM {A B : Type} (f : A -> result B) (l : list A) : result (list B) :=
  match l with
  | [] => Ok []
  | a :: l' => b <- f a ;; bs <- mapM f l' ;; Ok (b :: bs)
  end.

(** A statement that raises leaves behind the state reached so far: the
    outcome of a stateful computation is a returned value or an exception
    together with the state [s] at the [raise]. *)
Inductive outcome (S A : Type) : Type :=
| Returned (a : A)
| Raised (e : exn) (s : S).

Arguments Returned {S A} a.
Arguments Raised {S A} e s.

Definition obind {S A B : Type} (m : outcome S A) (k : A -> outcome S B)
  : outcome S B :=
  match m with
  | Returned a => k a
  | Raised e s => Raised e s
  end.

Notation "x <-- m ;; k" := (obind m (fun x => k))
  (at level 61, m at next level, right associativity).

(** A pure step that may raise, run in state [s]. *)
Definition lift {S A : Type} (r : result A) (s : S) : outcome S A :=
  match r with
  | Ok a => Returned a
  | Raise e => Raised e s
  end.

(** ** Python's [str.split(',')] and [int(str)] on ASCII text *)

Module PyStr.

Definition comma : ascii := ","%char.

(** [split_acc cur s] walks [s] with the field read so far in [cur] (in
    reverse).  As in Python, [n] separators give [n + 1] fields, so the
    empty string splits into one empty field. *)
Fixpoint split_acc (cur : list ascii) (s : string) : list (list ascii) :=
  match s with
  | EmptyString => [rev cur]
  | String c s' =>
      if Ascii.eqb c comma then rev cur :: split_acc [] s'
      else split_acc (c :: cur) s'
  end.

Definition split (s : string) : list (list ascii) := split_acc [] s.

(** The characters that [int] strips from both ends of an ASCII string:
    tab, line feed, vertical tab, form feed, carriage return and space. *)
Definition is_space (c : ascii) : bool :=
  let n := nat_of_ascii c in
  ((9 <=? n) && (n <=? 13) || (n =? 32))%nat.

Fixpoint lstrip (l : list ascii) : list ascii :=
  match l with
  | c :: l' => if is_space c then lstrip l' else l
  | [] => []
  end.

Definition strip (l : list ascii) : list ascii :=
  rev (lstrip (rev (lstrip l))).

Definition digit (c : ascii) : option Z :=
  let n := nat_of_ascii c in
  if ((48 <=? n) && (n <=? 57))%nat then Some (Z.of_nat n - 48) else None.

Definition underscore : ascii := "_"%char.

(** Digits of a decimal literal, with the single underscores Python allows
    between two digits.  [prev_digit] tells whether the previous character
    was a digit; [acc] is the value read so far. *)
Fixpoint digits (prev_digit : bool) (acc : Z) (l : list ascii) : option Z :=
  match l with
  | [] => if prev_digit then Some acc else None
  | c :: l' =>
      match digit c with
      | Some d => digits true (10 * acc + d) l'
      | None =>
          if Ascii.eqb c underscore && prev_digit then digits false acc l'
          else None
      end
  end.

(** The number of digits in a literal. *)
Definition count_digits (l : list ascii) : nat :=
  length (filter (fun c => match digit c with Some _ => true | None => false end)
                 l).

(** The most digits [int] converts: [sys.int_info.default_max_str_digits]. *)
Definition max_str_digits : Z := 4300.

(** [int(s)] for a [str] argument in base ten.  A literal of more than
    [max_str_digits] digits is refused with [ValueError] like a malformed
    one. *)
Definition int (l : list ascii) : result Z :=
  let body := strip l in
  let '(neg, ds) :=
    match body with
    | c :: r =>
        if Ascii.eqb c "-"%char then (true, r)
        else if Ascii.eqb c "+"%char then (false, r)
        else (false, body)
    | [] => (false, [])
    end in
  match digits false 0 ds with
  | Some v =>
      if max_str_digits <? Z.of_nat (count_digits ds) then Raise ValueError
      else Ok (if neg then - v else v)
  | None => Raise ValueError
  end.

End PyStr.

(** ** The bit-width schedule *)

Module Schedule.

(** [list.sort()] on integers: the ascending, stable rearrangement. *)
Fixpoint insert (x : Z) (l : list Z) : list Z :=
  match l with
  | [] => [x]
  | y :: l' => if x <? y then x :: l else y :: insert x l'
  end.

Fixpoint sort (l : list Z) : list Z :=
  match l with
  | [] => []
  | x :: l' => insert x (sort l')
  end.

(** [x in l] for a list of integers. *)
Definition mem (x : Z) (l : list Z) : bool := existsb (Z.eqb x) l.

(** Lines 62-63 of [main] and 158-159 of [forward]:
    [bit_width_list = list(map(int, args.bit_width_list.split(',')))]
    followed by [bit_width_list.sort()]. *)
Definition parse (s : string) : result (list Z) :=
  mapM PyStr.int (PyStr.split s).

Definition bit_width_list (s : string) : result (list Z) :=
  l <- parse s ;; Ok (sort l).

(** Lines 65-68 of [main]: the list handed to the model constructor (the
    comment there reads "Add 32 BN layers for evaluation only"). *)
Definition bw_list (bit_width_list : list Z) : list Z :=
  if negb (mem 32 bit_width_list) then bit_width_list ++ [32]
  else bit_width_list.

(** The two lists [main] builds from an already parsed request. *)
Definition build (requested : list Z) : list Z * list Z :=
  let training := sort requested in (training, bw_list training).

End Schedule.

(** ** Python lists read at an index *)

Module PyList.

(** [l[i]] for [i >= 0]. *)
Definition index {A : Type} (l : list A) (i : nat) : result A :=
  match nth_error l i with
  | Some a => Ok a
  | None => Raise IndexError
  end.

(** [l[-1]]. *)
Fixpoint last {A : Type} (l : list A) : result A :=
  match l with
  | [] => Raise IndexError
  | [a] => Ok a
  | _ :: l' => last l'
  end.

(** The in-place change [f] of the object stored at [l[i]]. *)
Fixpoint update_at {A : Type} (i : nat) (f : A -> A) (l : list A)
  : result (list A) :=
  match l, i with
  | [], _ => Raise IndexError
  | a :: l', O => Ok (f a :: l')
  | a :: l', S i' => r <- update_at i' f l' ;; Ok (a :: r)
  end.

(** The in-place change [f] of the object stored at [l[-1]]. *)
Fixpoint update_last {A : Type} (f : A -> A) (l : list A) : result (list A) :=
  match l with
  | [] => Raise IndexError
  | [a] => Ok [f a]
  | a :: l' => r <- update_last f l' ;; Ok (a :: r)
  end.

(** [range(n)]. *)
Definition range (n : nat) : list nat := seq 0 n.

End PyList.

(** ** The collaborators of the script *)

(** The kinds of value the script passes around without looking inside. *)
Class Types : Type := {
  Input : Type;      (* a batch of inputs *)
  Target : Type;     (* a batch of integer labels *)
  Tensor : Type;     (* a tensor, with the graph autograd keeps for it *)
  Scalar : Type;     (* a Python float, what [.item()] returns *)
  Params : Type;     (* the shared weights, what the optimizer updates *)
  Buffers : Type;    (* the other module state a forward call may touch *)
  Grad : Type;       (* the [.grad] fields of the weights *)
  OptState : Type    (* the optimizer's own state *)
}.

(** The model object: its weights, its buffers, the train/eval flag and the
    [wbit]/[abit] attributes that [model.apply(lambda m: setattr(...))]
    writes on every module. *)
Record Model {T : Types} : Type := mkModel {
  training : bool;
  wbit : Z;
  abit : Z;
  params : Params;
  buffers : Buffers
}.

Arguments mkModel {T} training wbit abit params buffers.

(** What [train.py] imports or receives: the network, the torch functions,
    the two criteria, [utils.accuracy], autograd and the optimizer.  The
    first argument of the two forward functions tells whether gradient
    recording is on (it is off inside [torch.no_grad()]).  A forward call
    cannot touch the weights; it returns the buffers it leaves behind. *)
Class Torch {T : Types} : Type := {
  get_num_layers : nat;
  get_activations : bool -> Model -> Input -> list Tensor * Buffers;
  call : bool -> Model -> Input -> Tensor * Buffers;
  size0 : Input -> nat;
  softmax : Tensor -> Tensor;
  detach : Tensor -> Tensor;
  data : Tensor -> Tensor;
  item : Tensor -> Scalar;
  tsub : Tensor -> Tensor -> Tensor;
  square : Tensor -> Tensor;
  mean : Tensor -> Tensor;
  sub_scalar : Tensor -> Scalar -> Tensor;
  criterion : Tensor -> Target -> Tensor;
  criterion_soft : Tensor -> Tensor -> Tensor;
  accuracy : Tensor -> Target -> Tensor * Tensor;
  backward : Tensor -> Grad -> Grad;
  zero_grad : Grad -> Grad;
  step : OptState -> Params -> Grad -> OptState * Params;
  lr_scheduler_step : OptState -> list Scalar -> OptState;
  (** Lines 69-73 and 98-99: the model built for a list of bit-widths, the
      gradients before the first backward call, the optimizer with its
      scheduler. *)
  new_model : list Z -> Model;
  new_grad : Grad;
  new_optimizer : Model -> OptState;
  gt : Scalar -> Scalar -> bool;
  (** [AverageMeter.avg], as a function of the updates a meter received. *)
  meter_avg : list (Scalar * nat) -> Scalar
}.

(** Modelled from the spec: [utils.AverageMeter] is imported, its source is
    not part of [train.py].  A meter is kept as the sequence of the
    [update(value, weight)] calls it received, oldest first; the sum, the
    count, the latest value and the average are functions of it. *)
Definition Meter {T : Types} : Type := list (Scalar * nat).

Section Meters.
Context {T : Types}.

Definition AverageMeter : Meter := [].

Definition update (v : Scalar) (n : nat) (m : Meter) : Meter := m ++ [(v, n)].

(** The four lists [losses], [top1], [top5] and [slack_meter] of [forward]
    hold one entry per element of [bit_width_list] and are read in lock
    step, through [zip] or at index [-1]; one record holds the four entries
    of a level. *)
Record LevelMeters : Type := mkLevel {
  am_l : Meter;
  am_t1 : Meter;
  am_t5 : Meter;
  slm : list Meter
}.

Definition losses (ms : list LevelMeters) : list Meter := map am_l ms.
Definition top1 (ms : list LevelMeters) : list Meter := map am_t1 ms.
Definition top5 (ms : list LevelMeters) : list Meter := map am_t5 ms.
Definition slack_meter (ms : list LevelMeters) : list (list Meter) := map slm ms.

Definition update_hard (l p1 p5 : Scalar) (n : nat) (r : LevelMeters) : LevelMeters :=
  mkLevel (update l n (am_l r)) (update p1 n (am_t1 r)) (update p5 n (am_t5 r))
          (slm r).

End Meters.

Arguments mkLevel {T} am_l am_t1 am_t5 slm.

(** The command-line options that [main] and [forward] read. *)
Record Args : Type := mkArgs {
  bit_width_list : string;
  print_freq : Z;
  start_epoch : Z;
  epochs : Z;
  wandb_log : bool;
  eval_constraint : bool
}.

(** The calls whose effect lies with a collaborator, in the order made. *)
Inductive Call {T : Types} : Type :=
| CallZeroGrad
| CallGetActivations (grad_on train_mode : bool) (w a : Z)
| CallModel (grad_on train_mode : bool) (w a : Z)
| CallBackward (loss : Tensor)
| CallStep.

Record World {T : Types} : Type := mkWorld {
  model : Model;
  grad : Grad;
  opt : OptState;
  calls : list Call
}.

Arguments mkWorld {T} model grad opt calls.

(** ** [forward] *)

Section Forward.
Context {T : Types} {K : Torch}.

Definition log (c : Call) (w : World) : World :=
  mkWorld (model w) (grad w) (opt w) (calls w ++ [c]).

Definition set_model (m : Model) (w : World) : World :=
  mkWorld m (grad w) (opt w) (calls w).

(** [model.eval()] and [model.train()]. *)
Definition model_eval (w : World) : World :=
  let m := model w in
  set_model (mkModel false (wbit m) (abit m) (params m) (buffers m)) w.

Definition model_train (w : World) : World :=
  let m := model w in
  set_model (mkModel true (wbit m) (abit m) (params m) (buffers m)) w.

(** [model.apply(lambda m: setattr(m, 'wbit', bw))] and the same for
    ['abit']. *)
Definition set_wbit (bw : Z) (w : World) : World :=
  let m := model w in
  set_model (mkModel (training m) bw (abit m) (params m) (buffers m)) w.

Definition set_abit (bw : Z) (w : World) : World :=
  let m := model w in
  set_model (mkModel (training m) (wbit m) bw (params m) (buffers m)) w.

Definition set_buffers (b : Buffers) (w : World) : World :=
  let m := model w in
  set_model (mkModel (training m) (wbit m) (abit m) (params m) b) w.

(** [model.get_activations(input)] and [model(input)], with gradient
    recording on or off. *)
Definition do_get_activations (g : bool) (x : Input) (w : World)
  : list Tensor * World :=
  let m := model w in
  let '(acts, b) := get_activations g m x in
  (acts, set_buffers b
           (log (CallGetActivations g (training m) (wbit m) (abit m)) w)).

Definition do_call (g : bool) (x : Input) (w : World) : Tensor * World :=
  let m := model w in
  let '(out, b) := call g m x in
  (out, set_buffers b (log (CallModel g (training m) (wbit m) (abit m)) w)).

(** [loss.backward()], [optimizer.zero_grad()] and [optimizer.step()]. *)
Definition do_backward (loss : Tensor) (w : World) : World :=
  log (CallBackward loss)
      (mkWorld (model w) (backward loss (grad w)) (opt w) (calls w)).

Definition do_zero_grad (w : World) : World :=
  log CallZeroGrad
      (mkWorld (model w) (zero_grad (grad w)) (opt w) (calls w)).

Definition do_step (w : World) : World :=
  let m := model w in
  let '(o, p) := step (opt w) (params m) (grad w) in
  log CallStep
      (mkWorld (mkModel (training m) (wbit m) (abit m) p (buffers m))
               (grad w) o (calls w)).

(** The global name [epsilon], read at line 188.  No assignment, import
    or definition of [train.py] binds it and it is no builtin, so reading
    it raises [NameError]; the value it would give, a table of thresholds
    indexed by bit-width and layer, never exists. *)
Definition global_epsilon : result (Z -> nat -> Scalar) := Raise NameError.

(** Line 188: the slack of layer [l] at bit-width [bw], for a table
    [epsilon]. *)
Definition slack (epsilon : Z -> nat -> Scalar) (bw : Z) (l : nat)
    (aq af : Tensor) : Tensor :=
  sub_scalar (mean (square (tsub aq af))) (epsilon bw l).

(** Lines 187-189, over the layer indices [ls] still to visit.  The left
    operand of the subtraction of line 188 is evaluated first, so
    [act_q[l]] and [act_full[l]] are read before [epsilon] is. *)
Fixpoint slack_loop (ls : list nat) (bw : Z) (n : nat)
    (act_q act_full : list Tensor) (s : list Meter) : result (list Meter) :=
  match ls with
  | [] => Ok s
  | l :: ls' =>
      aq <- PyList.index act_q l ;;
      af <- PyList.index act_full l ;;
      epsilon <- global_epsilon ;;
      s' <- PyList.update_at l (update (item (slack epsilon bw l aq af)) n) s ;;
      slack_loop ls' bw n act_q act_full s'
  end.

(** Lines 176-189: the body of the evaluation loop, over the rows that
    [zip(bit_width_list, losses, top1, top5, slack_meter)] still yields. *)
Fixpoint eval_levels (x : Input) (y : Target) (act_full : list Tensor)
    (target_soft : Tensor) (rows : list (Z * LevelMeters)) (w : World)
  : outcome World (list LevelMeters * World) :=
  match rows with
  | [] => Returned ([], w)
  | (bw, r) :: rows' =>
      let w := set_abit bw (set_wbit bw w) in
      let '(output, w) := do_call false x w in
      let loss := criterion output y in
      let '(prec1, prec5) := accuracy (data output) y in
      let n := size0 x in
      let r := update_hard (item loss) (item prec1) (item prec5) n r in
      let '(act_q, w) := do_get_activations false x w in
      s <-- lift (PyList.update_last
                    (update (item (criterion_soft output target_soft)) n)
                    (slm r)) w ;;
      s <-- lift (slack_loop (PyList.range get_num_layers) bw n
                             act_q act_full s) w ;;
      let r := mkLevel (am_l r) (am_t1 r) (am_t5 r) s in
      rest <-- eval_levels x y act_full target_soft rows' w ;;
      Returned (r :: fst rest, snd rest)
  end.

(** Lines 194-202: the loop of the [else] clause, over the rows of
    [zip(bit_width_list, losses, top1, top5)]. *)
Fixpoint else_levels (x : Input) (y : Target)
    (rows : list (Z * LevelMeters)) (w : World) : list LevelMeters * World :=
  match rows with
  | [] => ([], w)
  | (bw, r) :: rows' =>
      let w := set_abit bw (set_wbit bw w) in
      let '(output, w) := do_call false x w in
      let loss := criterion output y in
      let '(prec1, prec5) := accuracy (data output) y in
      let r := update_hard (item loss) (item prec1) (item prec5) (size0 x) r in
      let rest := else_levels x y rows' w in
      (r :: fst rest, snd rest)
  end.

(** Lines 165-202: one batch with [training] false.  The [for] statement
    at line 176 holds no [break], so its [else] clause runs each time the
    loop comes to its end. *)
Definition eval_batch (bit_width_list : list Z) (x : Input) (y : Target)
    (ms : list LevelMeters) (w : World)
  : outcome World (list LevelMeters * World) :=
  let w := model_eval w in
  top <-- lift (PyList.last bit_width_list) w ;;
  let w := set_wbit top w in
  top <-- lift (PyList.last bit_width_list) w ;;
  let w := set_abit top w in
  let '(act_full, w) := do_get_activations false x w in
  let '(output, w) := do_call false x w in
  let target_soft := softmax (detach output) in
  r <-- eval_levels x y act_full target_soft (combine bit_width_list ms) w ;;
  let '(ms, w) := r in
  let w := set_abit 32 (set_wbit 32 w) in
  Returned (else_levels x y (combine bit_width_list ms) w).

(** Lines 220-232: the body of the training loop, over the rows that
    [zip(bit_width_list, losses, top1, top5, slack_meter)] still yields;
    [target_soft] is the variable of that name as the row is entered. *)
Fixpoint train_levels (x : Input) (y : Target) (target_soft : Tensor)
    (rows : list (Z * LevelMeters)) (w : World)
  : outcome World (list LevelMeters * World) :=
  match rows with
  | [] => Returned ([], w)
  | (bw, r) :: rows' =>
      let w := set_abit bw (set_wbit bw w) in
      let '(act_q, w) := do_get_activations true x w in
      output <-- lift (PyList.last act_q) w ;;
      let loss := criterion_soft output target_soft in
      let w := do_backward loss w in
      let target_soft := softmax (detach output) in
      let '(prec1, prec5) := accuracy (data output) y in
      let r := update_hard (item loss) (item prec1) (item prec5) (size0 x) r in
      rest <-- train_levels x y target_soft rows' w ;;
      Returned (r :: fst rest, snd rest)
  end.

(** Lines 204-233: one batch with [training] true, up to and including
    [optimizer.step()]. *)
Definition train_batch (bit_width_list : list Z) (x : Input) (y : Target)
    (ms : list LevelMeters) (w : World)
  : outcome World (list LevelMeters * World) :=
  let w := do_zero_grad w in
  let w := set_abit 32 (set_wbit 32 w) in
  let '(act_full, w) := do_get_activations true x w in
  output <-- lift (PyList.last act_full) w ;;
  let loss := criterion output y in
  let w := do_backward loss w in
  let '(prec1, prec5) := accuracy (data output) y in
  ms <-- lift (PyList.update_last
                 (update_hard (item loss) (item prec1) (item prec5) (size0 x))
                 ms) w ;;
  let target_soft := softmax (detach output) in
  r <-- train_levels x y target_soft (combine bit_width_list ms) w ;;
  let '(ms, w) := r in
  Returned (ms, do_step w).

(** Line 235: [i % args.print_freq == 0] guards a logging call only, but
    the remainder is taken on every training batch. *)
Definition print_check (i : Z) (a : Args) : result unit :=
  if print_freq a =? 0 then Raise ZeroDivisionError else Ok tt.

(** Lines 164-237: the loop over [enumerate(data_loader)]. *)
Fixpoint batches (is_training : bool) (a : Args) (bwl : list Z) (i : Z)
    (data_loader : list (Input * Target)) (ms : list LevelMeters) (w : World)
  : outcome World (list LevelMeters * World) :=
  match data_loader with
  | [] => Returned (ms, w)
  | (x, y) :: rest =>
      r <-- (if negb is_training then eval_batch bwl x y ms w
             else r <-- train_batch bwl x y ms w ;;
                  _ <-- lift (print_check i a) (snd r) ;;
                  Returned r) ;;
      batches is_training a bwl (i + 1) rest (fst r) (snd r)
  end.

(** Lines 160-163: one fresh row of meters per element of the list. *)
Definition fresh_meters (bwl : list Z) : list LevelMeters :=
  map (fun _ => mkLevel AverageMeter AverageMeter AverageMeter
                        (repeat AverageMeter (get_num_layers + 1))) bwl.

(** [forward] up to its [return]: the meters and the state it leaves. *)
Definition forward_meters (data_loader : list (Input * Target)) (a : Args)
    (is_training : bool) (w : World)
  : outcome World (list LevelMeters * World) :=
  bwl <-- lift (Schedule.bit_width_list (bit_width_list a)) w ;;
  batches is_training a bwl 0 data_loader (fresh_meters bwl) w.

(** What [forward] returns: three lists of averages, and the table of
    slack averages when [training] is false. *)
Record ForwardOut : Type := mkOut {
  out_loss : list Scalar;
  out_prec1 : list Scalar;
  out_prec5 : list Scalar;
  out_slack : option (list (list Scalar))
}.

Definition averages (is_training : bool) (ms : list LevelMeters) : ForwardOut :=
  mkOut (map meter_avg (losses ms)) (map meter_avg (top1 ms))
        (map meter_avg (top5 ms))
        (if is_training then None
         else Some (map (map meter_avg) (slack_meter ms))).

Definition forward (data_loader : list (Input * Target)) (a : Args)
    (is_training : bool) (w : World) : outcome World (ForwardOut * World) :=
  r <-- forward_meters data_loader a is_training w ;;
  Returned (averages is_training (fst r), snd r).

End Forward.

(** ** [main] *)

(** [max(a, b)] of Python: [b] when [b > a], else [a]. *)
Definition py_max {S : Type} (gt : S -> S -> bool) (a b : S) : S :=
  if gt b a then b else a.

(** Lines 119-124: the flag [is_best] and the new [best_prec1], from the
    old [best_prec1] ([None] until the first epoch has run) and the
    latest [val_prec1[-1]]. *)
Definition track_best {S : Type} (gt : S -> S -> bool)
    (best_prec1 : option S) (v : S) : bool * S :=
  match best_prec1 with
  | None => (true, v)
  | Some b => (gt v b, py_max gt v b)
  end.

(** [range(start, stop)]. *)
Definition py_range (start stop : Z) : list Z :=
  map (fun k => start + Z.of_nat k) (seq 0 (Z.to_nat (stop - start))).

Section Main.
Context {T : Types} {K : Torch}.

(** The dictionary handed to [save_checkpoint] at lines 125-134 with the
    flag [is_best] (the architecture name is left out). *)
Record Checkpoint : Type := mkCheckpoint {
  ck_epoch : Z;
  ck_state_dict : Params * Buffers;
  ck_best_prec1 : Scalar;
  ck_optimizer : OptState;
  ck_is_best : bool
}.

(** The values formatted into the summary line of lines 152-155. *)
Record Summary : Type := mkSummary {
  sm_epoch : Z;
  sm_train_loss : Scalar;
  sm_train_prec1 : Scalar;
  sm_train_prec5 : Scalar;
  sm_val_loss : Scalar;
  sm_val_prec1 : Scalar;
  sm_val_prec5 : Scalar
}.

(** What a run has built and written once the model exists. *)
Record Run : Type := mkRun {
  model_levels : list Z;        (* the list the model was built for *)
  world : World;
  best_prec1 : option Scalar;
  saved : list Checkpoint;      (* calls of [save_checkpoint], oldest first *)
  logged : list Summary         (* summary lines, oldest first *)
}.

(** The state of the process: nothing built yet, or a run under way. *)
Inductive MainState : Type :=
| Startup
| Running (r : Run).

Definition set_world (w : World) (r : Run) : Run :=
  mkRun (model_levels r) w (best_prec1 r) (saved r) (logged r).

(** A call of [forward] made from the epoch loop. *)
Definition in_run {A : Type} (r : Run) (m : outcome World A)
  : outcome MainState A :=
  match m with
  | Returned a => Returned a
  | Raised e w => Raised e (Running (set_world w r))
  end.

Definition set_opt (o : OptState) (w : World) : World :=
  mkWorld (model w) (grad w) o (calls w).

(** Lines 107-155: the body of the epoch loop. *)
Definition epoch_body (a : Args) (train_loader val_loader : list (Input * Target))
    (epoch : Z) (r : Run) : outcome MainState Run :=
  let w := model_train (world r) in
  t <-- in_run r (forward train_loader a true w) ;;
  let w := model_eval (snd t) in
  t <-- in_run r (forward train_loader a false w) ;;
  let '(train, w) := t in
  v <-- in_run r (forward val_loader a false w) ;;
  let '(val, w) := v in
  let w := set_opt (lr_scheduler_step (opt w) (out_loss val)) w in
  let r := set_world w r in
  v1 <-- lift (PyList.last (out_prec1 val)) (Running r) ;;
  let '(is_best, best) := track_best gt (best_prec1 r) v1 in
  let ck := mkCheckpoint (epoch + 1)
                         (params (model w), buffers (model w))
                         best (opt w) is_best in
  let r := mkRun (model_levels r) w (Some best) (saved r ++ [ck]) (logged r) in
  (* line 137 reads [train_ce], a name bound nowhere *)
  _ <-- (if wandb_log a then Raised NameError (Running r) else Returned tt) ;;
  tl <-- lift (PyList.last (out_loss train)) (Running r) ;;
  t1 <-- lift (PyList.last (out_prec1 train)) (Running r) ;;
  t5 <-- lift (PyList.last (out_prec5 train)) (Running r) ;;
  vl <-- lift (PyList.last (out_loss val)) (Running r) ;;
  v1 <-- lift (PyList.last (out_prec1 val)) (Running r) ;;
  v5 <-- lift (PyList.last (out_prec5 val)) (Running r) ;;
  Returned (mkRun (model_levels r) (world r) (best_prec1 r) (saved r)
                  (logged r ++ [mkSummary epoch tl t1 t5 vl v1 v5])).

(** Line 106: the loop over the epochs still to run. *)
Fixpoint epoch_loop (a : Args) (train_loader val_loader : list (Input * Target))
    (es : list Z) (r : Run) : outcome MainState Run :=
  match es with
  | [] => Returned r
  | e :: es' =>
      r' <-- epoch_body a train_loader val_loader e r ;;
      epoch_loop a train_loader val_loader es' r'
  end.

(** Lines 62-75 and 98-99: the schedule, the model and the optimizer of a
    run started without [--resume] and without [--pretrain]. *)
Definition startup (a : Args) : outcome MainState Run :=
  bwl <-- lift (Schedule.bit_width_list (bit_width_list a)) Startup ;;
  let bw_list := Schedule.bw_list bwl in
  let m := new_model bw_list in
  Returned (mkRun bw_list (mkWorld m new_grad (new_optimizer m) [])
                  None [] []).

Definition main (a : Args) (train_loader val_loader : list (Input * Target))
  : outcome MainState Run :=
  r <-- startup a ;;
  epoch_loop a train_loader val_loader (py_range (start_epoch a) (epochs a)) r.

End Main.

Arguments mkCheckpoint {T} ck_epoch ck_state_dict ck_best_prec1 ck_optimizer ck_is_best.
Arguments mkSummary {T} _ _ _ _ _ _ _.
Arguments mkRun {T} model_levels world best_prec1 saved logged.

(** ** The start of [main] with [--lr_decay], [--resume] and [--pretrain] *)

(** What [main] reads of the dictionary that [torch.load] returns. *)
Record Stored {T : Types} : Type := mkStored {
  st_epoch : Z;
  st_state_dict : Params * Buffers;
  st_best_prec1 : Scalar;
  st_optimizer : OptState
}.

Arguments mkStored {T} st_epoch st_state_dict st_best_prec1 st_optimizer.

(** The file system and the loading functions lines 76-97 call.
    [torch.load] and [load_state_dict] are taken to succeed on a path for
    which [os.path.isfile] holds. *)
Class Files {T : Types} : Type := {
  isdir : string -> bool;
  isfile : string -> bool;
  path_join : string -> string -> string;
  torch_load : string -> Stored;
  (* [model.load_state_dict(sd, strict=...)] *)
  load_state_dict : bool -> Params * Buffers -> Model -> Model;
  (* lines 84-85: [optimizer.load_state_dict] of the stored state and the
     scheduler built for [lr_decay] from the stored epoch on *)
  resume_optimizer : OptState -> OptState -> list Z -> Z -> OptState
}.

(** The options of lines 72-97 that the epoch loop does not read; [None]
    is the default of both path options. *)
Record StartArgs : Type := mkStartArgs {
  base : Args;
  lr_decay : string;
  resume : option string;
  pretrain : option string
}.

(** [args.resume and args.resume != 'None']: the path when the test
    holds. *)
Definition given (p : option string) : option string :=
  match p with
  | None => None
  | Some s =>
      if (String.eqb s EmptyString || String.eqb s "None")%bool then None
      else Some s
  end.

Definition with_pretrain (p : option string) (sa : StartArgs) : StartArgs :=
  mkStartArgs (base sa) (lr_decay sa) (resume sa) p.

Definition with_start_epoch (n : Z) (a : Args) : Args :=
  mkArgs (bit_width_list a) (print_freq a) n (epochs a)
         (wandb_log a) (eval_constraint a).

Section MainFull.
Context {T : Types} {K : Torch} {F : Files}.

(** The state of the process when the start-up stops: before the model
    exists, with the model built for [levels], or with a run under way. *)
Inductive FullState : Type :=
| NotBuilt
| Built (levels : list Z) (m : Model)
| Started (r : Run).

Definition embed {A : Type} (o : outcome MainState A) : outcome FullState A :=
  match o with
  | Returned a => Returned a
  | Raised e Startup => Raised e NotBuilt
  | Raised e (Running r) => Raised e (Started r)
  end.

(** Lines 77-79 and 87-88, the same at 90-92 and 96-97: a directory
    stands for the file [model_best.pth.tar] in it, and a path that is no
    file raises [ValueError]. *)
Definition checkpoint_file (p : string) : result string :=
  let p := if isdir p then path_join p "model_best.pth.tar" else p in
  if isfile p then Ok p else Raise ValueError.

(** Lines 62-99: the epoch the loop starts at and the run as it stands
    before the first epoch.  As in [startup], [new_optimizer] stands for
    the optimizer of line 73 together with the scheduler that line 99
    builds for it; the scheduler of a resumed run is built at line 85,
    from the stored epoch. *)
Definition startup_full (sa : StartArgs) : outcome FullState (Z * Run) :=
  let a := base sa in
  bwl <-- lift (Schedule.bit_width_list (bit_width_list a)) NotBuilt ;;
  let bw_list := Schedule.bw_list bwl in
  let m := new_model bw_list in
  decay <-- lift (mapM PyStr.int (PyStr.split (lr_decay sa)))
                 (Built bw_list m) ;;
  let o := new_optimizer m in
  match given (resume sa) with
  | Some p =>
      f <-- lift (checkpoint_file p) (Built bw_list m) ;;
      let checkpoint := torch_load f in
      let m := load_state_dict true (st_state_dict checkpoint) m in
      let o := resume_optimizer o (st_optimizer checkpoint) decay
                                (st_epoch checkpoint) in
      Returned (st_epoch checkpoint,
                mkRun bw_list (mkWorld m new_grad o [])
                      (Some (st_best_prec1 checkpoint)) [] [])
  | None =>
      match given (pretrain sa) with
      | Some p =>
          f <-- lift (checkpoint_file p) (Built bw_list m) ;;
          let checkpoint := torch_load f in
          let m := load_state_dict false (st_state_dict checkpoint) m in
          Returned (start_epoch a,
                    mkRun bw_list (mkWorld m new_grad o []) None [] [])
      | None =>
          Returned (start_epoch a,
                    mkRun bw_list (mkWorld m new_grad o []) None [] [])
      end
  end.

Definition main_full (sa : StartArgs)
    (train_loader val_loader : list (Input * Target))
  : outcome FullState Run :=
  s <-- startup_full sa ;;
  embed (epoch_loop (base sa) train_loader val_loader
                    (py_range (fst s) (epochs (base sa))) (snd s)).

End MainFull.

(** ** A small instance of the collaborators

    Tensors are kept as terms, so that a loss shows what it was computed
    from; weights are the number of optimizer steps taken so far. *)

Module Toy.

Inductive term : Type :=
| Act (p : nat) (w a : Z) (x l : nat)
| Out (p : nat) (w a : Z) (x : nat)
| Softmax (t : term)
| Detach (t : term)
| Data (t : term)
| Sub (t u : term)
| Square (t : term)
| Mean (t : term)
| SubScalar (t : term) (q : Q)
| Crit (t : term) (y : nat)
| CritSoft (t u : term)
| Prec1 (t : term) (y : nat)
| Prec5 (t : term) (y : nat).

(** Top-1 accuracy of the network after [p] optimizer steps. *)
Definition score (p : nat) : Q :=
  match p with
  | 1%nat => 70 # 1
  | 2%nat => 145 # 2
  | 3%nat => 71 # 1
  | _ => 0 # 1
  end.

Fixpoint value (t : term) : Q :=
  match t with
  | Act _ w _ _ _ => inject_Z w
  | Out p _ _ _ => score p
  | Softmax t | Detach t | Data t | Mean t => value t
  | Sub t u => (value t - value u)%Q
  | Square t => (value t * value t)%Q
  | SubScalar t q => (value t - q)%Q
  | Crit _ _ => 0 # 1
  | CritSoft _ _ => 0 # 1
  | Prec1 t _ => value t
  | Prec5 _ _ => 100 # 1
  end.

Definition weighted_sum (m : list (Q * nat)) : Q :=
  fold_right (fun vn acc => (fst vn * inject_Z (Z.of_nat (snd vn)) + acc)%Q)
             (0 # 1) m.

Definition count (m : list (Q * nat)) : nat :=
  fold_right (fun vn acc => (snd vn + acc)%nat) 0%nat m.

Definition avg (m : list (Q * nat)) : Q :=
  Qred (weighted_sum m / inject_Z (Z.of_nat (count m))).

#[export] Instance types : Types := {|
  Input := nat;
  Target := nat;
  Tensor := term;
  Scalar := Q;
  Params := nat;
  Buffers := unit;
  Grad := list term;
  OptState := nat
|}.

Definition acts (g : bool) (m : Model) (x : nat) : list term * unit :=
  ([Act (params m) (wbit m) (abit m) x 0;
    Act (params m) (wbit m) (abit m) x 1;
    Out (params m) (wbit m) (abit m) x], tt).

#[export] Instance torch : Torch := {|
  get_num_layers := 2;
  get_activations := acts;
  call := fun _ m x => (Out (params m) (wbit m) (abit m) x, tt);
  size0 := fun _ => 2%nat;
  softmax := Softmax;
  detach := Detach;
  data := Data;
  item := fun t => Qred (value t);
  tsub := Sub;
  square := Square;
  mean := Mean;
  sub_scalar := SubScalar;
  criterion := Crit;
  criterion_soft := CritSoft;
  accuracy := fun t y => (Prec1 t y, Prec5 t y);
  backward := fun loss g => g ++ [loss];
  zero_grad := fun _ => [];
  step := fun o p _ => (S o, S p);
  lr_scheduler_step := fun o _ => o;
  new_model := fun _ => mkModel false 0 0 0%nat tt;
  new_grad := [];
  new_optimizer := fun _ => 0%nat;
  gt := fun a b => negb (Qle_bool a b);
  meter_avg := avg
|}.

Definition args (bits : string) : Args :=
  mkArgs bits 20 0 3 false false.

Definition w0 : World :=
  mkWorld (new_model []) new_grad (new_optimizer (new_model [])) [].

(** The result of a computation that is known to return. *)
Definition returned {A : Type} (o : outcome World (A * World)) (d : A)
  : A * World :=
  match o with
  | Returned r => r
  | Raised _ w => (d, w)
  end.

(** One training batch of the schedule 4,8, started from fresh meters. *)
Definition train_4_8 : list LevelMeters * World :=
  returned (train_batch [4; 8] 0%nat 0%nat (fresh_meters [4; 8]) w0) [].

(** One evaluation batch of the same schedule, and an evaluation pass
    over one batch with the slack toggle off. *)
Definition eval_4_8 : outcome World (list LevelMeters * World) :=
  eval_batch [4; 8] 0%nat 0%nat (fresh_meters [4; 8]) w0.

Definition eval_pass_4_8 : outcome World (ForwardOut * World) :=
  forward [(0%nat, 0%nat)] (args "4,8") false w0.

(** A run asked for three epochs, with one training batch and one
    validation batch. *)
Definition three_epochs : outcome MainState Run :=
  main (args "4,8") [(0%nat, 0%nat)] [(1%nat, 1%nat)].

Definition train_4_8_16 : list LevelMeters * World :=
  returned (train_batch [4; 8; 16] 0%nat 0%nat (fresh_meters [4; 8; 16]) w0) [].

End Toy.

(** A file system with one run directory and the checkpoint saved in it
    at the end of epoch 1. *)
Module ToyFiles.

Definition stored : Stored (T := Toy.types) :=
  mkStored (T := Toy.types) 2 (5%nat, tt) (72 # 1) 9%nat.

#[export] Instance files : Files (T := Toy.types) := {|
  isdir := fun p => String.eqb p "runs";
  isfile := fun p => String.eqb p "runs/model_best.pth.tar";
  path_join := fun d f => (d ++ "/" ++ f)%string;
  torch_load := fun _ => stored;
  load_state_dict := fun _ sd m =>
    mkModel (training m) (wbit m) (abit m) (fst sd) (snd sd);
  resume_optimizer := fun _ o _ _ => o
|}.

Definition args (res pre : option string) : StartArgs :=
  mkStartArgs (Toy.args "4,8") "100,150,180" res pre.

End ToyFiles.

(** ** Vocabulary of the statements *)

Section Vocabulary.
Context {T : Types} {K : Torch}.

Definition is_backward (c : Call) : bool :=
  match c with CallBackward _ => true | _ => false end.

Definition is_step (c : Call) : bool :=
  match c with CallStep => true | _ => false end.

Definition is_forward (c : Call) : bool :=
  match c with
  | CallGetActivations _ _ _ _ | CallModel _ _ _ _ => true
  | _ => false
  end.

(** The losses handed to [backward], in the order of the calls. *)
Fixpoint backward_losses (cs : list Call) : list Tensor :=
  match cs with
  | [] => []
  | CallBackward l :: cs' => l :: backward_losses cs'
  | _ :: cs' => backward_losses cs'
  end.

(** The bit-widths at which a forward call of either kind was made. *)
Fixpoint forward_levels (cs : list Call) : list Z :=
  match cs with
  | [] => []
  | CallGetActivations _ _ w _ :: cs' => w :: forward_levels cs'
  | CallModel _ _ w _ :: cs' => w :: forward_levels cs'
  | _ :: cs' => forward_levels cs'
  end.

(** The soft losses of a chain of outputs in which each output is judged
    against the softmax of the detached output that came just before it,
    [teacher] being the one before the first. *)
Fixpoint cascade (teacher : Tensor) (outs : list Tensor) : list Tensor :=
  match outs with
  | [] => []
  | o :: outs' =>
      criterion_soft o (softmax (detach teacher)) :: cascade o outs'
  end.

(** [o] is the output of the network of [w] with both bit-widths set to
    [bw], the weights and the train/eval flag being those of [w]. *)
Definition output_at (g : bool) (w : World) (x : Input) (bw : Z) (o : Tensor)
  : Prop :=
  exists m : Model,
    wbit m = bw /\ abit m = bw /\ params m = params (model w) /\
    training m = training (model w) /\
    PyList.last (fst (get_activations g m x)) = Ok o.

(** The state a computation ends in, returned or raised. *)
Definition final_world {A : Type} (o : outcome World (A * World)) : World :=
  match o with
  | Returned r => snd r
  | Raised _ w => w
  end.

(** Every forward call returns one tensor per layer and the output. *)
Definition traces_complete : Prop :=
  forall g m x, length (fst (get_activations g m x)) = (get_num_layers + 1)%nat.

End Vocabulary.

Section Frames.
Context {T : Types} {K : Torch}.

(** [w'] is reached from [w] by forward calls and changes of the
    bit-width attributes only: the weights, the train/eval flag, the
    gradients and the optimizer are those of [w], and the calls made in
    between are all forward calls. *)
Definition quiet (w w' : World) : Prop :=
  params (model w') = params (model w) /\
  training (model w') = training (model w) /\
  grad w' = grad w /\ opt w' = opt w /\
  exists cs, calls w' = calls w ++ cs /\ forallb is_forward cs = true.

(** The same without the train/eval flag, which [model.eval()] writes. *)
Definition no_update (w w' : World) : Prop :=
  params (model w') = params (model w) /\
  grad w' = grad w /\ opt w' = opt w /\
  exists cs, calls w' = calls w ++ cs /\ forallb is_forward cs = true.

Definition count_calls (p : Call -> bool) (cs : list Call) : nat :=
  length (filter p cs).

End Frames.

(** The flags [is_best] of a run of epochs whose validation top-1 values
    are [vs], when the best score before the first of them is [best]. *)
Fixpoint best_flags {S : Type} (gt : S -> S -> bool) (best : option S)
    (vs : list S) : list bool :=
  match vs with
  | [] => []
  | v :: vs' =>
      fst (track_best gt best v)
        :: best_flags gt (Some (snd (track_best gt best v))) vs'
  end.

(** The best score after each of these epochs. *)
Fixpoint best_scores {S : Type} (gt : S -> S -> bool) (best : option S)
    (vs : list S) : list S :=
  match vs with
  | [] => []
  | v :: vs' =>
      snd (track_best gt best v)
        :: best_scores gt (Some (snd (track_best gt best v))) vs'
  end.

Definition with_eval_constraint (b : bool) (a : Args) : Args :=
  mkArgs (bit_width_list a) (print_freq a) (start_epoch a) (epochs a)
         (wandb_log a) b.

Section MoreVocabulary.
Context {T : Types} {K : Torch}.

(** The gradients after the losses [ls] have been sent to [backward] one
    after the other, starting from [g]. *)
Definition accumulate (ls : list Tensor) (g : Grad) : Grad :=
  fold_left (fun g l => backward l g) ls g.

(** [r'] holds the meters [r] after [k] further updates of each of its
    loss and accuracy meters; the slack meters are those of [r]. *)
Definition hard_updates (k : nat) (r r' : LevelMeters) : Prop :=
  slm r' = slm r /\
  length (am_l r') = (k + length (am_l r))%nat /\
  length (am_t1 r') = (k + length (am_t1 r))%nat /\
  length (am_t5 r') = (k + length (am_t5 r))%nat.

(** Some forward call returns fewer tensors than one per layer and the
    output. *)
Definition trace_too_short : Prop :=
  exists g m x,
    (length (fst (get_activations g m x)) < S get_num_layers)%nat.

(** The meters [forward] keeps for the list [bwl]: one row per level, each
    with its [get_num_layers() + 1] slack meters. *)
Definition shaped (bwl : list Z) (ms : list LevelMeters) : Prop :=
  length ms = length bwl /\
  Forall (fun r => length (slm r) = S get_num_layers) ms.

(** The same options with another value of [--print-freq]. *)
Definition with_print_freq (n : Z) (a : Args) : Args :=
  mkArgs (bit_width_list a) n (start_epoch a) (epochs a)
         (wandb_log a) (eval_constraint a).

End MoreVocabulary.

(** The number of commas in the text of an option. *)
Fixpoint count_commas (s : string) : nat :=
  match s with
  | EmptyString => 0
  | String c s' =>
      if Ascii.eqb c PyStr.comma then S (count_commas s') else count_commas s'
  end.

(** * Properties *)

(** ** The schedule *)

Module ScheduleFacts.
Import Schedule.

Lemma insert_perm (x : Z) (l : list Z) : Permutation (x :: l) (insert x l).
Proof.
  induction l as [|y l IH]; simpl; [reflexivity|].
  destruct (x <? y); [reflexivity|].
  rewrite perm_swap. now apply perm_skip.
Qed.

Lemma sort_perm (l : list Z) : Permutation l (sort l).
Proof.
  induction l as [|x l IH]; simpl; [constructor|].
  rewrite <- insert_perm. now apply perm_skip.
Qed.

Lemma insert_sorted (x : Z) (l : list Z) :
  StronglySorted Z.le l -> StronglySorted Z.le (insert x l).
Proof.
  induction 1 as [|y l Hs IH Hall]; simpl.
  - repeat constructor.
  - destruct (Z.ltb_spec x y).
    + constructor; [now constructor|].
      constructor; [lia|]. eapply Forall_impl; [|exact Hall]. simpl; lia.
    + constructor; [exact IH|].
      eapply Permutation_Forall; [apply insert_perm|].
      constructor; [lia|exact Hall].
Qed.

Lemma sort_sorted (l : list Z) : StronglySorted Z.le (sort l).
Proof.
  induction l; simpl; [constructor|now apply insert_sorted].
Qed.

Lemma mem_In (x : Z) (l : list Z) : mem x l = true <-> In x l.
Proof.
  unfold mem. rewrite existsb_exists. split.
  - intros (y & Hy & E). apply Z.eqb_eq in E. now subst.
  - intros H. exists x. split; [exact H|apply Z.eqb_refl].
Qed.

End ScheduleFacts.

Lemma sorted_lt_NoDup (l : list Z) : StronglySorted Z.lt l -> NoDup l.
Proof.
  induction 1 as [|x l Hs IH Hall]; constructor; [|exact IH].
  intros Hin. rewrite Forall_forall in Hall. specialize (Hall x Hin). lia.
Qed.

Lemma sorted_le_NoDup_lt (l : list Z) :
  StronglySorted Z.le l -> NoDup l -> StronglySorted Z.lt l.
Proof.
  induction 1 as [|x l Hs IH Hall]; intros Hnd; constructor.
  - apply IH. now inversion Hnd.
  - inversion Hnd as [|? ? Hnotin Hnd']; subst.
    rewrite Forall_forall in *. intros y Hy.
    assert (x <> y) by (intros ->; contradiction).
    specialize (Hall y Hy). lia.
Qed.

(** C6, as the code has it: [sort] keeps duplicates, so the training list
    is the ascending rearrangement of the request, strictly ascending
    exactly when the request repeats no level; the second list is the
    first with 32 appended only if the first lacks it. *)
Theorem build_sorted_keeps_duplicates (P : list Z) :
  StronglySorted Z.le (fst (Schedule.build P)) /\
  Permutation P (fst (Schedule.build P)) /\
  (StronglySorted Z.lt (fst (Schedule.build P)) <-> NoDup P) /\
  snd (Schedule.build P) =
    (if in_dec Z.eq_dec 32 (fst (Schedule.build P))
     then fst (Schedule.build P) else fst (Schedule.build P) ++ [32]).
Proof.
  simpl. split; [apply ScheduleFacts.sort_sorted|].
  split; [apply ScheduleFacts.sort_perm|]. split.
  - split.
    + intros H. apply sorted_lt_NoDup in H.
      eapply Permutation_NoDup; [|exact H].
      symmetry. apply ScheduleFacts.sort_perm.
    + intros H. apply sorted_le_NoDup_lt; [apply ScheduleFacts.sort_sorted|].
      eapply Permutation_NoDup; [apply ScheduleFacts.sort_perm|exact H].
  - unfold Schedule.bw_list.
    destruct (in_dec Z.eq_dec 32 (Schedule.sort P)) as [Hin|Hout].
    + apply ScheduleFacts.mem_In in Hin. now rewrite Hin.
    + destruct (Schedule.mem 32 (Schedule.sort P)) eqn:E; [|reflexivity].
      apply ScheduleFacts.mem_In in E. contradiction.
Qed.

(** C6 fails as stated: the request 4,4 gives the training list [4; 4],
    which is neither strictly ascending nor the sorted request with its
    duplicates removed. *)
Lemma build_not_deduplicated :
  ~ StronglySorted Z.lt (fst (Schedule.build [4; 4])) /\
  fst (Schedule.build [4; 4]) <> Schedule.sort (nodup Z.eq_dec [4; 4]).
Proof.
  split.
  - intros H. apply sorted_lt_NoDup in H. simpl in H.
    inversion H as [|? ? Hnotin _]; subst. apply Hnotin. now left.
  - vm_compute. discriminate.
Qed.

(** ** Startup *)

Section StartupFacts.
Context {T : Types} {K : Torch}.

(** C9, as the code has it: on the empty option text [int] raises a
    [ValueError] at line 62, while nothing has been built and no epoch
    has begun. *)
Theorem empty_schedule_raises_ValueError (a : Args)
    (train_loader val_loader : list (Input * Target)) :
  bit_width_list a = EmptyString ->
  Schedule.bit_width_list (bit_width_list a) = Raise ValueError /\
  main a train_loader val_loader = Raised ValueError Startup.
Proof.
  intros H. unfold main, startup. rewrite H. split; reflexivity.
Qed.

End StartupFacts.

Lemma empty_schedule_raises_ValueError_witness :
  bit_width_list (Toy.args "") = EmptyString /\
  Schedule.bit_width_list (bit_width_list (Toy.args "")) = Raise ValueError /\
  main (T := Toy.types) (K := Toy.torch) (Toy.args "") [(0%nat, 0%nat)] []
    = Raised ValueError Startup.
Proof.
  split; [reflexivity|].
  apply (empty_schedule_raises_ValueError (T := Toy.types) (K := Toy.torch)).
  reflexivity.
Defined.

(** C9 fails as stated: the exception raised on the empty option text is
    not a [ConfigurationError]. *)
Lemma empty_schedule_not_ConfigurationError :
  Schedule.bit_width_list "" <> Raise ConfigurationError /\
  main (T := Toy.types) (K := Toy.torch) (Toy.args "") [(0%nat, 0%nat)] []
    <> Raised ConfigurationError Startup.
Proof.
  split; vm_compute; discriminate.
Qed.

(** ** Lists read and updated at an index *)

Module PyListFacts.
Import PyList.

Lemma update_at_spec {A : Type} (f : A -> A) (l l' : list A) (i : nat) :
  update_at i f l = Ok l' ->
  length l' = length l /\ (i < length l)%nat /\
  nth_error l' i = option_map f (nth_error l i) /\
  forall j, j <> i -> nth_error l' j = nth_error l j.
Proof.
  revert i l'. induction l as [|a l IH]; intros i l' H.
  - destruct i; discriminate.
  - destruct i as [|i]; simpl in H.
    + injection H as <-. simpl. repeat split; try lia.
      intros [|j] Hj; [congruence|reflexivity].
    + destruct (update_at i f l) as [r|e] eqn:E; simpl in H; [|discriminate].
      injection H as <-. destruct (IH _ _ E) as (Hl & Hi & Hn & Ho).
      simpl. repeat split; try lia; [exact Hn|].
      intros [|j] Hj; [reflexivity|]. apply Ho. congruence.
Qed.

Lemma update_last_at {A : Type} (f : A -> A) (l : list A) :
  update_last f l = update_at (length l - 1) f l.
Proof.
  induction l as [|a l IH]; [reflexivity|].
  destruct l as [|b l]; [reflexivity|].
  change (update_last f (a :: b :: l))
    with (r <- update_last f (b :: l) ;; Ok (a :: r)).
  rewrite IH. simpl. now rewrite Nat.sub_0_r.
Qed.

Lemma last_ok {A : Type} (l : list A) :
  l <> [] -> exists a, last l = Ok a.
Proof.
  induction l as [|a l IH]; [congruence|]. intros _.
  destruct l as [|b l]; [simpl; eauto|]. apply IH. discriminate.
Qed.

Lemma last_app {A : Type} (l : list A) (a : A) : last (l ++ [a]) = Ok a.
Proof.
  induction l as [|b l IH]; [reflexivity|].
  simpl. destruct (l ++ [a]) eqn:E; [|exact IH].
  now destruct l.
Qed.

End PyListFacts.

(** ** Frames of the primitive steps *)

Section PrimitiveFacts.
Context {T : Types} {K : Torch}.

Lemma do_call_eq (g : bool) (x : Input) (w : World) :
  do_call g x w =
  (fst (call g (model w) x),
   set_buffers (snd (call g (model w) x))
     (log (CallModel g (training (model w)) (wbit (model w)) (abit (model w)))
          w)).
Proof. unfold do_call. now destruct (call g (model w) x). Qed.

Lemma do_get_activations_eq (g : bool) (x : Input) (w : World) :
  do_get_activations g x w =
  (fst (get_activations g (model w) x),
   set_buffers (snd (get_activations g (model w) x))
     (log (CallGetActivations g (training (model w)) (wbit (model w))
                              (abit (model w))) w)).
Proof. unfold do_get_activations. now destruct (get_activations g (model w) x). Qed.

Lemma do_step_eq (w : World) :
  do_step w =
  log CallStep
    (mkWorld (mkModel (training (model w)) (wbit (model w)) (abit (model w))
                      (snd (step (opt w) (params (model w)) (grad w)))
                      (buffers (model w)))
             (grad w) (fst (step (opt w) (params (model w)) (grad w)))
             (calls w)).
Proof. unfold do_step. now destruct (step (opt w) (params (model w)) (grad w)). Qed.

Lemma quiet_refl (w : World) : quiet w w.
Proof.
  repeat split. exists []. now rewrite app_nil_r.
Qed.

Lemma quiet_trans (w1 w2 w3 : World) : quiet w1 w2 -> quiet w2 w3 -> quiet w1 w3.
Proof.
  intros (P1 & T1 & G1 & O1 & cs1 & C1 & F1) (P2 & T2 & G2 & O2 & cs2 & C2 & F2).
  repeat split; try congruence.
  exists (cs1 ++ cs2). split.
  - now rewrite C2, C1, app_assoc.
  - now rewrite forallb_app, F1, F2.
Qed.

Lemma quiet_set_wbit (bw : Z) (w : World) : quiet w (set_wbit bw w).
Proof. repeat split. exists []. now rewrite app_nil_r. Qed.

Lemma quiet_set_abit (bw : Z) (w : World) : quiet w (set_abit bw w).
Proof. repeat split. exists []. now rewrite app_nil_r. Qed.

Lemma quiet_do_call (g : bool) (x : Input) (w : World) :
  quiet w (snd (do_call g x w)).
Proof.
  rewrite do_call_eq. repeat split. simpl. eexists. split; reflexivity.
Qed.

Lemma quiet_do_get_activations (g : bool) (x : Input) (w : World) :
  quiet w (snd (do_get_activations g x w)).
Proof.
  rewrite do_get_activations_eq. repeat split. simpl.
  eexists. split; reflexivity.
Qed.

End PrimitiveFacts.

Create HintDb quiet.

#[local] Hint Resolve quiet_refl quiet_set_wbit quiet_set_abit quiet_do_call
  quiet_do_get_activations : quiet.

Arguments do_call : simpl never.
Arguments do_get_activations : simpl never.
Arguments do_backward : simpl never.
Arguments do_zero_grad : simpl never.
Arguments do_step : simpl never.
Arguments set_wbit : simpl never.
Arguments set_abit : simpl never.
Arguments model_eval : simpl never.
Arguments model_train : simpl never.

(** Names the result of the next forward call in the goal and records
    that the call is quiet. *)
Ltac step_call :=
  match goal with
  | |- context [do_call ?g ?x ?w] =>
      let o := fresh "output" in
      let w' := fresh "w" in
      let E := fresh "E" in
      let Q := fresh "Q" in
      pose proof (quiet_do_call g x w) as Q;
      destruct (do_call g x w) as [o w'] eqn:E; simpl in Q
  | |- context [do_get_activations ?g ?x ?w] =>
      let o := fresh "acts" in
      let w' := fresh "w" in
      let E := fresh "E" in
      let Q := fresh "Q" in
      pose proof (quiet_do_get_activations g x w) as Q;
      destruct (do_get_activations g x w) as [o w'] eqn:E; simpl in Q
  end.

Ltac quiet_chain :=
  repeat first
    [ assumption
    | apply quiet_refl
    | apply quiet_set_wbit
    | apply quiet_set_abit
    | eapply quiet_trans; [|eassumption]
    | eapply quiet_trans; [|apply quiet_set_abit]
    | eapply quiet_trans; [|apply quiet_set_wbit] ].

(** ** The evaluation branch leaves weights and gradients alone *)

Section EvalFrame.
Context {T : Types} {K : Torch}.

Lemma eval_levels_quiet (x : Input) (y : Target) (act_full : list Tensor)
    (target_soft : Tensor) (rows : list (Z * LevelMeters)) :
  forall w, quiet w (final_world (eval_levels x y act_full target_soft rows w)).
Proof.
  induction rows as [|[bw r] rows IH]; intros w; simpl; [apply quiet_refl|].
  step_call. destruct (accuracy (data output) y) as [prec1 prec5].
  step_call.
  destruct (PyList.update_last _ _) as [s1|e]; simpl; [|quiet_chain].
  destruct (slack_loop _ _ _ _ _ _) as [s2|e]; simpl; [|quiet_chain].
  specialize (IH w1).
  destruct (eval_levels x y act_full target_soft rows w1) as [[rs w2]|e w2];
    simpl in *; eapply quiet_trans; try exact IH; quiet_chain.
Qed.

Lemma else_levels_quiet (x : Input) (y : Target) (rows : list (Z * LevelMeters)) :
  forall w, quiet w (snd (else_levels x y rows w)).
Proof.
  induction rows as [|[bw r] rows IH]; intros w; simpl; [apply quiet_refl|].
  step_call. destruct (accuracy (data output) y) as [prec1 prec5]. simpl.
  eapply quiet_trans; [|apply IH]. quiet_chain.
Qed.

Lemma quiet_no_update (w w' : World) : quiet w w' -> no_update w w'.
Proof. intros (P & _ & G & O & C). now repeat split. Qed.

Lemma no_update_refl (w : World) : no_update w w.
Proof. apply quiet_no_update, quiet_refl. Qed.

Lemma no_update_trans (w1 w2 w3 : World) :
  no_update w1 w2 -> no_update w2 w3 -> no_update w1 w3.
Proof.
  intros (P1 & G1 & O1 & cs1 & C1 & F1) (P2 & G2 & O2 & cs2 & C2 & F2).
  repeat split; try congruence.
  exists (cs1 ++ cs2). split.
  - now rewrite C2, C1, app_assoc.
  - now rewrite forallb_app, F1, F2.
Qed.

Lemma no_update_model_eval (w : World) : no_update w (model_eval w).
Proof. repeat split. exists []. now rewrite app_nil_r. Qed.

Lemma eval_batch_no_update (bwl : list Z) (x : Input) (y : Target)
    (ms : list LevelMeters) (w : World) :
  no_update w (final_world (eval_batch bwl x y ms w)).
Proof.
  unfold eval_batch.
  eapply no_update_trans; [apply no_update_model_eval|].
  apply quiet_no_update.
  destruct (PyList.last bwl) as [top|e]; simpl; [|apply quiet_refl].
  step_call. step_call.
  pose proof (eval_levels_quiet x y acts (softmax (detach output))
                                (combine bwl ms) w1) as Q1.
  destruct (eval_levels _ _ _ _ _ _) as [[ms' w2]|e w2]; simpl in *.
  - eapply quiet_trans; [|apply else_levels_quiet].
    eapply quiet_trans; [|apply quiet_set_abit].
    eapply quiet_trans; [|apply quiet_set_wbit].
    eapply quiet_trans; [|exact Q1]. quiet_chain.
  - eapply quiet_trans; [|exact Q1]. quiet_chain.
Qed.

Lemma eval_batches_no_update (a : Args) (bwl : list Z)
    (data_loader : list (Input * Target)) :
  forall i ms w,
    no_update w (final_world (batches false a bwl i data_loader ms w)).
Proof.
  induction data_loader as [|[x y] rest IH]; intros i ms w; simpl;
    [apply no_update_refl|].
  pose proof (eval_batch_no_update bwl x y ms w) as Q.
  destruct (eval_batch bwl x y ms w) as [[ms' w']|e w']; simpl in *;
    [|exact Q].
  eapply no_update_trans; [exact Q|apply IH].
Qed.

(** C5: an evaluation-only pass of [forward], whether it returns or
    raises, ends with the weights, the gradients and the optimizer it
    started with, and every call it made to a collaborator that holds
    state is a forward call: no [backward], no [zero_grad], no optimizer
    step. *)
Theorem evaluation_pass_updates_nothing (data_loader : list (Input * Target))
    (a : Args) (w : World) :
  params (model (final_world (forward data_loader a false w)))
    = params (model w) /\
  grad (final_world (forward data_loader a false w)) = grad w /\
  opt (final_world (forward data_loader a false w)) = opt w /\
  exists cs,
    calls (final_world (forward data_loader a false w)) = calls w ++ cs /\
    forallb is_forward cs = true /\
    count_calls is_step cs = 0%nat /\ count_calls is_backward cs = 0%nat.
Proof.
  assert (H : no_update w (final_world (forward data_loader a false w))).
  { unfold forward, forward_meters.
    destruct (Schedule.bit_width_list (bit_width_list a)) as [bwl|e]; simpl;
      [|apply no_update_refl].
    pose proof (eval_batches_no_update a bwl data_loader 0
                  (fresh_meters bwl) w) as Q.
    now destruct (batches false a bwl 0 data_loader (fresh_meters bwl) w)
      as [[ms w']|e w']. }
  destruct H as (P & G & O & cs & C & F).
  repeat split; try assumption.
  exists cs. repeat split; try assumption.
  - unfold count_calls. clear C. induction cs as [|c cs IH]; [reflexivity|].
    simpl in F. apply andb_prop in F as [Fc F].
    simpl. destruct c; try discriminate; simpl; now apply IH.
  - unfold count_calls. clear C. induction cs as [|c cs IH]; [reflexivity|].
    simpl in F. apply andb_prop in F as [Fc F].
    simpl. destruct c; try discriminate; simpl; now apply IH.
Qed.

End EvalFrame.

(** ** The steps of the evaluation loops *)

Section EvalLoops.
Context {T : Types} {K : Torch}.

Lemma do_call_inv (g : bool) (x : Input) (w w' : World) (o : Tensor) :
  do_call g x w = (o, w') ->
  o = fst (call g (model w) x) /\
  calls w' = calls w ++ [CallModel g (training (model w)) (wbit (model w))
                                   (abit (model w))] /\
  params (model w') = params (model w) /\
  training (model w') = training (model w) /\
  wbit (model w') = wbit (model w) /\ abit (model w') = abit (model w) /\
  grad w' = grad w /\ opt w' = opt w.
Proof.
  rewrite do_call_eq. intros H. injection H as <- <-. now repeat split.
Qed.

Lemma do_get_activations_inv (g : bool) (x : Input) (w w' : World)
    (acts : list Tensor) :
  do_get_activations g x w = (acts, w') ->
  acts = fst (get_activations g (model w) x) /\
  calls w' = calls w ++ [CallGetActivations g (training (model w))
                           (wbit (model w)) (abit (model w))] /\
  params (model w') = params (model w) /\
  training (model w') = training (model w) /\
  wbit (model w') = wbit (model w) /\ abit (model w') = abit (model w) /\
  grad w' = grad w /\ opt w' = opt w.
Proof.
  rewrite do_get_activations_eq. intros H. injection H as <- <-.
  now repeat split.
Qed.

Lemma set_bits_inv (bw : Z) (w : World) :
  exists w0, set_abit bw (set_wbit bw w) = w0 /\
    wbit (model w0) = bw /\ abit (model w0) = bw /\
    params (model w0) = params (model w) /\
    training (model w0) = training (model w) /\
    calls w0 = calls w /\ grad w0 = grad w /\ opt w0 = opt w.
Proof. eexists. split; [reflexivity|]. now repeat split. Qed.

Lemma map_fst_zip {A B : Type} (l : list A) (l' : list B) :
  length l' = length l -> map fst (combine l l') = l.
Proof.
  revert l'. induction l as [|a l IH]; intros [|b l'] H; simpl in *;
    try reflexivity; try discriminate.
  f_equal. apply IH. congruence.
Qed.

Lemma Forall2_zip_length {A B C : Type} (R : A * B -> C -> Prop)
    (l : list A) (l' : list B) (rs : list C) :
  length l' = length l -> Forall2 R (combine l l') rs -> length rs = length l.
Proof.
  intros H F. apply Forall2_length in F. rewrite <- F, length_combine. lia.
Qed.

(** ** Where level 32 appears *)

Lemma forward_levels_app (cs cs' : list Call) :
  forward_levels (cs ++ cs') = forward_levels cs ++ forward_levels cs'.
Proof.
  induction cs as [|c cs IH]; [reflexivity|].
  destruct c; simpl; now rewrite ?IH.
Qed.

Lemma Forall2_Forall_step {A : Type} (P P' : A -> Prop) (l l' : list A) :
  Forall2 (fun a a' => P a -> P' a') l l' -> Forall P l -> Forall P' l'.
Proof.
  induction 1 as [|a a' l l' H F2 IH]; intros F; constructor.
  - apply H. now inversion F.
  - apply IH. now inversion F.
Qed.

Lemma batches_ignore_toggle (is_training b : bool) (a : Args) (bwl : list Z)
    (data_loader : list (Input * Target)) :
  forall i ms w,
    batches is_training (with_eval_constraint b a) bwl i data_loader ms w
    = batches is_training a bwl i data_loader ms w.
Proof.
  induction data_loader as [|[x y] rest IH]; intros i ms w; simpl;
    [reflexivity|].
  destruct is_training; simpl.
  - destruct (train_batch bwl x y ms w) as [[ms1 w1]|e w1]; simpl;
      [|reflexivity].
    unfold print_check. simpl.
    destruct (print_freq a =? 0); simpl; [reflexivity|apply IH].
  - destruct (eval_batch bwl x y ms w) as [[ms1 w1]|e w1]; simpl;
      [apply IH|reflexivity].
Qed.

End EvalLoops.

(** ** What a subscript raises *)

Module RaiseFacts.
Import PyList.

Lemma last_raise {A : Type} (l : list A) (e : exn) :
  last l = Raise e -> e = IndexError /\ l = [].
Proof.
  induction l as [|a l IH]; simpl; intros H.
  - injection H as <-. now split.
  - destruct l as [|b l]; [discriminate|].
    apply IH in H as [_ H]. discriminate.
Qed.

Lemma index_raise {A : Type} (l : list A) (i : nat) (e : exn) :
  index l i = Raise e -> e = IndexError /\ (length l <= i)%nat.
Proof.
  unfold index. destruct (nth_error l i) eqn:E; intros H; [discriminate|].
  injection H as <-. split; [reflexivity|]. now apply nth_error_None.
Qed.

Lemma update_at_raise {A : Type} (f : A -> A) (l : list A) :
  forall i e, update_at i f l = Raise e ->
    e = IndexError /\ (length l <= i)%nat.
Proof.
  induction l as [|a l IH]; intros i e H.
  - destruct i; injection H as <-; simpl; split; (reflexivity || lia).
  - destruct i as [|i]; simpl in H; [discriminate|].
    destruct (update_at i f l) as [r|e0] eqn:E; simpl in H; [discriminate|].
    injection H as <-. apply IH in E as [-> L]. simpl. split; [reflexivity|lia].
Qed.

Lemma update_last_raise {A : Type} (f : A -> A) (l : list A) (e : exn) :
  update_last f l = Raise e -> e = IndexError /\ l = [].
Proof.
  rewrite PyListFacts.update_last_at. intros H.
  apply update_at_raise in H as [-> L]. split; [reflexivity|].
  destruct l; [reflexivity|simpl in L; lia].
Qed.

End RaiseFacts.

(** ** The lookup of [epsilon] at line 188 *)

Section EpsilonLookup.
Context {T : Types} {K : Torch}.

Lemma slack_loop_returned (ls : list nat) (bw : Z) (n : nat)
    (act_q act_full : list Tensor) (s s' : list Meter) :
  slack_loop ls bw n act_q act_full s = Ok s' -> ls = [] /\ s' = s.
Proof.
  destruct ls as [|l ls]; simpl; intros H.
  - injection H as <-. now split.
  - destruct (PyList.index act_q l); simpl in H; [|discriminate].
    destruct (PyList.index act_full l); simpl in H; discriminate.
Qed.

Lemma slack_loop_raise (ls : list nat) (bw : Z) (n : nat)
    (act_q act_full : list Tensor) (s : list Meter) (e : exn) :
  slack_loop ls bw n act_q act_full s = Raise e ->
  exists l ls', ls = l :: ls' /\
    ((e = IndexError /\
      ((length act_q <= l)%nat \/ (length act_full <= l)%nat)) \/
     e = NameError).
Proof.
  destruct ls as [|l ls]; simpl; intros H; [discriminate|].
  exists l, ls. split; [reflexivity|].
  destruct (PyList.index act_q l) as [aq|e0] eqn:Eq; simpl in H.
  2:{ injection H as <-. apply RaiseFacts.index_raise in Eq as [-> Lq].
      left. split; [reflexivity|now left]. }
  destruct (PyList.index act_full l) as [af|e0] eqn:Ef; simpl in H.
  2:{ injection H as <-. apply RaiseFacts.index_raise in Ef as [-> Lf].
      left. split; [reflexivity|now right]. }
  injection H as <-. now right.
Qed.

Lemma slack_loop_NameError (l : nat) (ls : list nat) (bw : Z) (n : nat)
    (act_q act_full : list Tensor) (s : list Meter) :
  (l < length act_q)%nat -> (l < length act_full)%nat ->
  slack_loop (l :: ls) bw n act_q act_full s = Raise NameError.
Proof.
  intros Hq Hf. simpl. unfold PyList.index.
  destruct (nth_error act_q l) eqn:Eq;
    [|apply nth_error_None in Eq; lia].
  destruct (nth_error act_full l) eqn:Ef;
    [|apply nth_error_None in Ef; lia].
  reflexivity.
Qed.

(** Lines 165-188 on a batch: with a list that is not empty, meters of
    the shape [forward] builds, complete traces and at least one layer,
    the batch stops at line 188 in the first turn of the loop of line
    176. *)
Lemma eval_batch_NameError (bwl : list Z) (x : Input) (y : Target)
    (ms : list LevelMeters) (w : World) :
  bwl <> [] -> shaped bwl ms ->
  traces_complete -> (1 <= get_num_layers)%nat ->
  exists (top b0 : Z) (w' : World),
    PyList.last bwl = Ok top /\ hd_error bwl = Some b0 /\
    eval_batch bwl x y ms w = Raised NameError w' /\
    calls w' = calls w ++ [CallGetActivations false false top top;
                           CallModel false false top top;
                           CallModel false false b0 b0;
                           CallGetActivations false false b0 b0] /\
    training (model w') = false /\
    wbit (model w') = b0 /\ abit (model w') = b0.
Proof.
  intros Hne [L F] C HL.
  destruct bwl as [|b0 bwl]; [contradiction|].
  destruct ms as [|r0 ms]; [discriminate|].
  inversion F as [|? ? Lr _]; subst.
  destruct (PyListFacts.last_ok (b0 :: bwl)) as [top Et]; [discriminate|].
  exists top, b0. unfold eval_batch. rewrite Et. cbn [lift obind].
  set (w0 := set_abit top (set_wbit top (model_eval w))).
  assert (I0 : wbit (model w0) = top /\ abit (model w0) = top /\
               training (model w0) = false /\ calls w0 = calls w)
    by now repeat split.
  clearbody w0. destruct I0 as (W0 & A0 & T0 & C0).
  destruct (do_get_activations false x w0) as [act_full w1] eqn:E1.
  apply do_get_activations_inv in E1 as (-> & C1 & _ & T1 & W1 & A1 & _).
  destruct (do_call false x w1) as [output w2] eqn:E2.
  apply do_call_inv in E2 as (_ & C2 & _ & T2 & _).
  cbn [combine eval_levels].
  destruct (set_bits_inv b0 w2) as (w3 & E3 & W3 & A3 & _ & T3 & C3 & _).
  rewrite E3. clear E3.
  destruct (do_call false x w3) as [out_q w4] eqn:E4.
  apply do_call_inv in E4 as (_ & C4 & _ & T4 & W4 & A4 & _).
  destruct (accuracy (data out_q) y) as [prec1 prec5].
  destruct (do_get_activations false x w4) as [act_q w5] eqn:E5.
  apply do_get_activations_inv in E5 as (-> & C5 & _ & T5 & W5 & A5 & _).
  cbn [slm update_hard].
  destruct (PyList.update_last _ (slm r0)) as [s1|e1] eqn:Eu.
  2:{ apply RaiseFacts.update_last_raise in Eu as [_ Es].
      rewrite Es in Lr. discriminate. }
  cbn [lift obind]. unfold PyList.range.
  destruct get_num_layers as [|n] eqn:En; [lia|]. cbn [seq].
  rewrite slack_loop_NameError.
  - cbn [lift obind]. eexists. split; [reflexivity|].
    split; [reflexivity|]. split; [reflexivity|].
    split.
    { rewrite C5, C4, C3, C2, C1, C0.
      rewrite W4, A4, T4, W3, A3, T3, T2, T1, W1, A1, T0, W0, A0.
      now rewrite <- !app_assoc. }
    split; [congruence|]. split; congruence.
  - rewrite C. lia.
  - rewrite C. lia.
Qed.

End EpsilonLookup.

(** C4: the claim describes what line 188 is written to compute, but no
    slack value is ever recorded.  On every evaluation batch of a
    network with at least one layer, the trace the slack is measured
    against is taken at the last level of the sorted list, not at 32,
    and the first turn of the loop over the levels stops at the read of
    [epsilon] with [NameError], after four forward calls. *)
Theorem slack_lookup_raises_NameError {T : Types} {K : Torch}
    (bwl : list Z) (x : Input) (y : Target) (ms : list LevelMeters)
    (w : World) :
  bwl <> [] -> shaped bwl ms ->
  traces_complete -> (1 <= get_num_layers)%nat ->
  exists (top b0 : Z) (w' : World),
    PyList.last bwl = Ok top /\ hd_error bwl = Some b0 /\
    eval_batch bwl x y ms w = Raised NameError w' /\
    calls w' = calls w ++ [CallGetActivations false false top top;
                           CallModel false false top top;
                           CallModel false false b0 b0;
                           CallGetActivations false false b0 b0].
Proof.
  intros Hne S0 C HL.
  destruct (eval_batch_NameError bwl x y ms w Hne S0 C HL)
    as (top & b0 & w' & Et & Eh & E & Cs & _).
  now exists top, b0, w'.
Qed.

Lemma toy_traces_complete : traces_complete (K := Toy.torch).
Proof. intros g m x. reflexivity. Qed.

Lemma toy_fresh_shaped (bwl : list Z) :
  shaped (K := Toy.torch) bwl (fresh_meters (K := Toy.torch) bwl).
Proof.
  split; [apply length_map|].
  apply Forall_forall. intros r Hr. apply in_map_iff in Hr as (bw & <- & _).
  reflexivity.
Qed.

Lemma slack_lookup_raises_NameError_witness :
  exists (top b0 : Z) (w' : World (T := Toy.types)),
    PyList.last [4; 8] = Ok top /\ hd_error [4; 8] = Some b0 /\
    eval_batch (K := Toy.torch) [4; 8] 0%nat 0%nat
      (fresh_meters (K := Toy.torch) [4; 8]) Toy.w0 = Raised NameError w' /\
    calls w' = calls Toy.w0 ++ [CallGetActivations false false top top;
                                CallModel false false top top;
                                CallModel false false b0 b0;
                                CallGetActivations false false b0 b0].
Proof.
  apply (slack_lookup_raises_NameError (K := Toy.torch) [4; 8] 0%nat 0%nat
           (fresh_meters (K := Toy.torch) [4; 8]) Toy.w0).
  - discriminate.
  - apply toy_fresh_shaped.
  - exact toy_traces_complete.
  - simpl. lia.
Defined.

(** C3: for the request 4,8 the list the model is built for holds 32,
    but no forward call of an evaluation batch is made at level 32: the
    trace the slack is measured against is taken at level 8, and the
    batch stops with [NameError] in the turn of level 4. *)
Theorem evaluation_of_4_8_never_at_32 :
  Schedule.bit_width_list (bit_width_list (Toy.args "4,8")) = Ok [4; 8] /\
  Schedule.build [4; 8] = ([4; 8], [4; 8; 32]) /\
  exists w' : World (T := Toy.types),
    Toy.eval_4_8 = Raised NameError w' /\
    forward_levels (calls w') = [8; 8; 4; 4] /\
    ~ In 32 (forward_levels (calls w')) /\
    hd_error (calls w') = Some (CallGetActivations false false 8 8).
Proof.
  split; [vm_compute; reflexivity|]. split; [reflexivity|].
  eexists. split; [vm_compute; reflexivity|].
  split; [reflexivity|]. split; [|reflexivity].
  simpl. intros H.
  repeat (destruct H as [H|H]; [discriminate H|]). exact H.
Qed.

(** C10: for the request 4,8 the loop of line 176 does not come to its
    end, so its [else] clause does not run: the batch stops with
    [NameError] in the turn of level 4, and the four forward calls made
    until then are all there is; level 8 has no turn and no level is
    visited a second time. *)
Theorem else_clause_not_reached_for_4_8 :
  exists w' : World (T := Toy.types),
    eval_batch (K := Toy.torch) [4; 8] 0%nat 0%nat
      (fresh_meters (K := Toy.torch) [4; 8]) Toy.w0 = Raised NameError w' /\
    calls w' = [CallGetActivations false false 8 8;
                CallModel false false 8 8;
                CallModel false false 4 4;
                CallGetActivations false false 4 4].
Proof.
  eexists. split; vm_compute; reflexivity.
Qed.

(** ** The slack toggle *)

(** C7, as the code has it: [forward] never reads the slack toggle, so a
    pass does the same whatever its value. *)
Theorem evaluation_pass_ignores_slack_toggle {T : Types} {K : Torch}
    (data_loader : list (Input * Target)) (a : Args) (is_training b : bool)
    (w : World) :
  forward data_loader (with_eval_constraint b a) is_training w
  = forward data_loader a is_training w.
Proof.
  unfold forward, forward_meters. simpl.
  destruct (Schedule.bit_width_list (bit_width_list a)) as [bwl|e]; simpl;
    [|reflexivity].
  now rewrite batches_ignore_toggle.
Qed.

(** C7 fails as stated: with the toggle off, an evaluation pass over one
    batch still takes the trace of level 4 that only the slack
    computation reads (line 185) and enters that computation, where it
    stops at the read of [epsilon] (line 188). *)
Lemma slack_computation_entered_with_toggle_off :
  eval_constraint (Toy.args "4,8") = false /\
  exists w' : World (T := Toy.types),
    Toy.eval_pass_4_8 = Raised NameError w' /\
    PyList.last (calls w') = Ok (CallGetActivations false false 4 4).
Proof.
  split; [reflexivity|].
  eexists. split; vm_compute; reflexivity.
Qed.

(** ** The training batch *)

Section TrainBatch.
Context {T : Types} {K : Torch}.

Lemma do_backward_inv (loss : Tensor) (w : World) :
  exists w1, do_backward loss w = w1 /\
    calls w1 = calls w ++ [CallBackward loss] /\ model w1 = model w /\
    grad w1 = backward loss (grad w) /\ opt w1 = opt w.
Proof. eexists. split; [reflexivity|]. now repeat split. Qed.

Lemma do_zero_grad_inv (w : World) :
  exists w1, do_zero_grad w = w1 /\
    calls w1 = calls w ++ [CallZeroGrad] /\ model w1 = model w /\
    grad w1 = zero_grad (grad w) /\ opt w1 = opt w.
Proof. eexists. split; [reflexivity|]. now repeat split. Qed.

Lemma do_step_inv (w : World) :
  exists w1, do_step w = w1 /\
    calls w1 = calls w ++ [CallStep] /\
    params (model w1) = snd (step (opt w) (params (model w)) (grad w)) /\
    opt w1 = fst (step (opt w) (params (model w)) (grad w)) /\
    grad w1 = grad w /\ training (model w1) = training (model w) /\
    buffers (model w1) = buffers (model w).
Proof.
  eexists. split; [reflexivity|]. rewrite do_step_eq. now repeat split.
Qed.

Lemma count_calls_app (p : Call -> bool) (cs cs' : list Call) :
  count_calls p (cs ++ cs') = (count_calls p cs + count_calls p cs')%nat.
Proof. unfold count_calls. now rewrite filter_app, length_app. Qed.

Lemma backward_losses_app (cs cs' : list Call) :
  backward_losses (cs ++ cs') = backward_losses cs ++ backward_losses cs'.
Proof.
  induction cs as [|c cs IH]; [reflexivity|].
  destruct c; simpl; now rewrite ?IH.
Qed.

Lemma count_backward_losses (cs : list Call) :
  count_calls is_backward cs = length (backward_losses cs).
Proof.
  unfold count_calls. induction cs as [|c cs IH]; [reflexivity|].
  destruct c; simpl; now rewrite ?IH.
Qed.

Lemma cascade_length (teacher : Tensor) (outs : list Tensor) :
  length (cascade teacher outs) = length outs.
Proof.
  revert teacher. induction outs as [|o outs IH]; intros teacher;
    [reflexivity|]. simpl. now rewrite IH.
Qed.

(** The loop of lines 220-232: its calls are one forward call and one
    [backward] per level, no optimizer step, and the losses it hands to
    [backward] form the chain that starts from [teacher]. *)
Lemma train_levels_returned (x : Input) (y : Target)
    (rows : list (Z * LevelMeters)) :
  forall teacher w rs w',
    train_levels x y (softmax (detach teacher)) rows w = Returned (rs, w') ->
    length rs = length rows /\
    params (model w') = params (model w) /\
    training (model w') = training (model w) /\ opt w' = opt w /\
    exists outs cs,
      Forall2 (output_at true w x) (map fst rows) outs /\
      calls w' = calls w ++ cs /\
      backward_losses cs = cascade teacher outs /\
      count_calls is_step cs = 0%nat /\
      forward_levels cs = map fst rows.
Proof.
  induction rows as [|[bw r] rows IH]; intros teacher w rs w' H; simpl in H.
  - injection H as <- <-. repeat split.
    exists [], []. rewrite app_nil_r. repeat split. constructor.
  - destruct (set_bits_inv bw w) as (w0 & E0 & W0 & A0 & P0 & T0 & C0 & _ & O0).
    rewrite E0 in H. clear E0.
    destruct (do_get_activations true x w0) as [act_q w1] eqn:E1.
    apply do_get_activations_inv in E1 as (-> & C1 & P1 & T1 & W1 & A1 & _ & O1).
    destruct (PyList.last _) as [output|e] eqn:Eout; simpl in H;
      [|discriminate].
    destruct (do_backward_inv (criterion_soft output (softmax (detach teacher)))
                              w1) as (w2 & E2 & C2 & M2 & _ & O2).
    rewrite E2 in H. clear E2.
    destruct (accuracy (data output) y) as [prec1 prec5].
    destruct (train_levels x y (softmax (detach output)) rows w2)
      as [[rs' w3]|e w3] eqn:E3; simpl in H; [|discriminate].
    injection H as <- <-.
    apply IH in E3 as (L3 & P3 & T3 & O3 & outs & cs & F3 & C3 & B3 & S3 & V3).
    split; [simpl; congruence|].
    rewrite M2 in P3, T3.
    split; [congruence|]. split; [congruence|]. split; [congruence|].
    exists (output :: outs),
           ([CallGetActivations true (training (model w)) bw bw;
             CallBackward (criterion_soft output (softmax (detach teacher)))]
            ++ cs).
    split.
    { constructor.
      - exists (model w0). now repeat split.
      - eapply Forall2_impl; [|exact F3].
        intros b o (m & Hw & Ha & Hp & Ht & Hl). exists m.
        rewrite M2 in Hp, Ht. repeat split; try assumption; congruence. }
    split; [rewrite C3, C2, C1, C0, T0, W0, A0; now rewrite <- !app_assoc|].
    split; [simpl; now rewrite B3|].
    split; [rewrite count_calls_app, S3; reflexivity|].
    simpl. now rewrite V3.
Qed.

End TrainBatch.

Section TrainBatchClaims.
Context {T : Types} {K : Torch}.

Lemma update_last_length {A : Type} (f : A -> A) (l l' : list A) :
  PyList.update_last f l = Ok l' -> length l' = length l.
Proof.
  rewrite PyListFacts.update_last_at. intros H.
  now apply PyListFacts.update_at_spec in H.
Qed.

(** Lines 204-233 as a whole: the calls of a training batch that returns
    and the losses handed to [backward]. *)
Lemma train_batch_returned (bwl : list Z) (x : Input) (y : Target)
    (ms ms' : list LevelMeters) (w w' : World) :
  train_batch bwl x y ms w = Returned (ms', w') ->
  length ms = length bwl ->
  exists (out_ref : Tensor) (outs : list Tensor) (cs : list Call),
    output_at true w x 32 out_ref /\
    Forall2 (output_at true w x) bwl outs /\
    calls w' = calls w ++ cs /\
    backward_losses cs = criterion out_ref y :: cascade out_ref outs /\
    count_calls is_step cs = 1%nat /\
    forward_levels cs = 32 :: bwl /\
    hd_error cs = Some CallZeroGrad /\
    PyList.last cs = Ok CallStep.
Proof.
  unfold train_batch. intros H L.
  destruct (do_zero_grad_inv w) as (wz & Ez & Cz & Mz & _ & _).
  rewrite Ez in H. clear Ez.
  destruct (set_bits_inv 32 wz) as (w0 & E0 & W0 & A0 & P0 & T0 & C0 & _).
  rewrite E0 in H. clear E0.
  destruct (do_get_activations true x w0) as [act_full w1] eqn:E1.
  apply do_get_activations_inv in E1 as (-> & C1 & P1 & T1 & W1 & A1 & _).
  destruct (PyList.last _) as [output|e] eqn:Eout; simpl in H; [|discriminate].
  destruct (do_backward_inv (criterion output y) w1) as (w2 & E2 & C2 & M2 & _).
  rewrite E2 in H. clear E2.
  destruct (accuracy (data output) y) as [prec1 prec5].
  destruct (PyList.update_last _ ms) as [ms1|e] eqn:Eu; simpl in H;
    [|discriminate].
  apply update_last_length in Eu.
  destruct (train_levels _ _ _ _ _) as [[ms2 w3]|e w3] eqn:E3; simpl in H;
    [|discriminate].
  injection H as <- <-.
  apply train_levels_returned in E3
    as (_ & _ & _ & _ & outs & cs & F3 & C3 & B3 & S3 & V3).
  rewrite map_fst_zip in F3, V3 by congruence.
  destruct (do_step_inv w3) as (w4 & E4 & C4 & _). rewrite E4. clear E4.
  rewrite Mz in P0, T0.
  assert (Pw : params (model w2) = params (model w)) by congruence.
  assert (Tw : training (model w2) = training (model w)) by congruence.
  exists output, outs,
         ([CallZeroGrad; CallGetActivations true (training (model w)) 32 32;
           CallBackward (criterion output y)] ++ cs ++ [CallStep]).
  split; [exists (model w0); now repeat split|].
  split.
  { eapply Forall2_impl; [|exact F3].
    intros b o (m & Hw & Ha & Hp & Ht & Hl). exists m.
    repeat split; try assumption; congruence. }
  split.
  { rewrite C4, C3, C2, C1, C0, Cz, T0, W0, A0.
    now rewrite <- !app_assoc. }
  split; [rewrite !backward_losses_app, B3; simpl; now rewrite app_nil_r|].
  split; [rewrite !count_calls_app, S3; reflexivity|].
  split; [rewrite !forward_levels_app, V3; simpl; now rewrite app_nil_r|].
  split; [reflexivity|].
  rewrite app_assoc. apply PyListFacts.last_app.
Qed.

End TrainBatchClaims.

Section TrainingClaims.
Context {T : Types} {K : Torch}.

(** C1, as the code has it: a training batch that returns has made
    exactly one optimizer step, whatever the length of the list, and one
    [backward] call more than the list has levels: one for the reference
    pass at 32 bits and one for each element of the list. *)
Theorem one_step_and_a_backward_per_level_and_reference (bwl : list Z)
    (x : Input) (y : Target) (ms ms' : list LevelMeters) (w w' : World) :
  train_batch bwl x y ms w = Returned (ms', w') ->
  length ms = length bwl ->
  exists cs,
    calls w' = calls w ++ cs /\
    count_calls is_step cs = 1%nat /\
    count_calls is_backward cs = S (length bwl).
Proof.
  intros H L.
  apply train_batch_returned in H
    as (out_ref & outs & cs & _ & F & C & B & S1 & _); [|exact L].
  exists cs. split; [exact C|]. split; [exact S1|].
  rewrite count_backward_losses, B. simpl. rewrite cascade_length.
  f_equal. symmetry. eapply Forall2_length. exact F.
Qed.

Lemma cascade_nth (outs : list Tensor) :
  forall teacher i o_prev o,
    nth_error outs i = Some o_prev ->
    nth_error outs (S i) = Some o ->
    nth_error (cascade teacher outs) (S i)
      = Some (criterion_soft o (softmax (detach o_prev))).
Proof.
  induction outs as [|o0 outs IH]; intros teacher i o_prev o Hp Ho.
  - destruct i; discriminate.
  - destruct i as [|i]; simpl in Hp.
    + injection Hp as ->. destruct outs as [|o1 outs]; [discriminate|].
      simpl in Ho. injection Ho as ->. reflexivity.
    + simpl. apply IH; assumption.
Qed.

(** C2, as the code has it: the list is walked in ascending order, so
    the soft target of every level but the first is the softmax of the
    detached output of the level just before it in the list, the
    immediately lower one; the first, lowest level is judged against the
    softmax of the detached output of the reference pass at 32 bits.
    [outs] holds the outputs of the levels in the order of the list. *)
Theorem soft_target_is_output_of_previous_level (bwl : list Z)
    (x : Input) (y : Target) (ms ms' : list LevelMeters) (w w' : World) :
  train_batch bwl x y ms w = Returned (ms', w') ->
  length ms = length bwl ->
  exists (out_ref : Tensor) (outs : list Tensor) (cs : list Call),
    output_at true w x 32 out_ref /\
    Forall2 (output_at true w x) bwl outs /\
    calls w' = calls w ++ cs /\
    nth_error (backward_losses cs) 0 = Some (criterion out_ref y) /\
    (forall o, nth_error outs 0 = Some o ->
       nth_error (backward_losses cs) 1
         = Some (criterion_soft o (softmax (detach out_ref)))) /\
    (forall i o_prev o,
       nth_error outs i = Some o_prev ->
       nth_error outs (S i) = Some o ->
       nth_error (backward_losses cs) (S (S i))
         = Some (criterion_soft o (softmax (detach o_prev)))).
Proof.
  intros H L.
  apply train_batch_returned in H
    as (out_ref & outs & cs & R & F & C & B & _); [|exact L].
  exists out_ref, outs, cs. repeat split; try assumption.
  - now rewrite B.
  - intros o Ho. rewrite B. destruct outs as [|o0 outs]; [discriminate|].
    simpl in Ho. injection Ho as ->. reflexivity.
  - intros i o_prev o Hp Ho. rewrite B. simpl.
    now apply cascade_nth.
Qed.

End TrainingClaims.

Lemma one_step_and_a_backward_per_level_and_reference_witness :
  (train_batch (T := Toy.types) (K := Toy.torch) [4; 8] 0%nat 0%nat
     (fresh_meters (K := Toy.torch) [4; 8]) Toy.w0
     = Returned (fst Toy.train_4_8, snd Toy.train_4_8) /\
   length (fresh_meters (K := Toy.torch) [4; 8]) = length [4; 8]) /\
  exists cs,
    calls (snd Toy.train_4_8) = calls Toy.w0 ++ cs /\
    count_calls (T := Toy.types) is_step cs = 1%nat /\
    count_calls (T := Toy.types) is_backward cs = S (length [4; 8]).
Proof.
  split.
  { split; vm_compute; reflexivity. }
  apply (one_step_and_a_backward_per_level_and_reference
           (T := Toy.types) (K := Toy.torch) [4; 8] 0%nat 0%nat
           (fresh_meters (K := Toy.torch) [4; 8])
           (fst Toy.train_4_8) Toy.w0 (snd Toy.train_4_8));
    vm_compute; reflexivity.
Defined.

(** C1 fails as stated: for the list [4; 8] a training batch makes three
    [backward] calls, not as many as the list has levels. *)
Lemma backward_calls_exceed_schedule_length :
  train_batch (T := Toy.types) (K := Toy.torch) [4; 8] 0%nat 0%nat
    (fresh_meters (K := Toy.torch) [4; 8]) Toy.w0
    = Returned (fst Toy.train_4_8, snd Toy.train_4_8) /\
  count_calls (T := Toy.types) is_backward (calls (snd Toy.train_4_8)) = 3%nat /\
  count_calls (T := Toy.types) is_backward (calls (snd Toy.train_4_8))
    <> length [4; 8].
Proof.
  split; [vm_compute; reflexivity|].
  assert (E : count_calls (T := Toy.types) is_backward
                (calls (snd Toy.train_4_8)) = 3%nat)
    by (vm_compute; reflexivity).
  rewrite E. split; [reflexivity|]. simpl. discriminate.
Qed.

Lemma soft_target_is_output_of_previous_level_witness :
  (train_batch (T := Toy.types) (K := Toy.torch) [4; 8; 16] 0%nat 0%nat
     (fresh_meters (K := Toy.torch) [4; 8; 16]) Toy.w0
     = Returned (fst Toy.train_4_8_16, snd Toy.train_4_8_16) /\
   length (fresh_meters (K := Toy.torch) [4; 8; 16]) = length [4; 8; 16]) /\
  exists (out_ref : Toy.term) (outs : list Toy.term)
         (cs : list (Call (T := Toy.types))),
    output_at (K := Toy.torch) true Toy.w0 0%nat 32 out_ref /\
    Forall2 (output_at (K := Toy.torch) true Toy.w0 0%nat) [4; 8; 16] outs /\
    calls (snd Toy.train_4_8_16) = calls Toy.w0 ++ cs /\
    nth_error (backward_losses cs) 0 = Some (Toy.Crit out_ref 0%nat) /\
    (forall o, nth_error outs 0 = Some o ->
       nth_error (backward_losses cs) 1
         = Some (Toy.CritSoft o (Toy.Softmax (Toy.Detach out_ref)))) /\
    (forall i o_prev o,
       nth_error outs i = Some o_prev ->
       nth_error outs (S i) = Some o ->
       nth_error (backward_losses cs) (S (S i))
         = Some (Toy.CritSoft o (Toy.Softmax (Toy.Detach o_prev)))).
Proof.
  split.
  { split; vm_compute; reflexivity. }
  apply (soft_target_is_output_of_previous_level
           (T := Toy.types) (K := Toy.torch) [4; 8; 16] 0%nat 0%nat
           (fresh_meters (K := Toy.torch) [4; 8; 16])
           (fst Toy.train_4_8_16) Toy.w0 (snd Toy.train_4_8_16));
    vm_compute; reflexivity.
Defined.

(** C2 fails as stated: in the list [4; 8; 16] the level 8 is judged
    against the softmax of the detached output of level 4, the level
    below it, and not against that of level 16, the next higher one. *)
Lemma soft_target_of_8_comes_from_4 :
  train_batch (T := Toy.types) (K := Toy.torch) [4; 8; 16] 0%nat 0%nat
    (fresh_meters (K := Toy.torch) [4; 8; 16]) Toy.w0
    = Returned (fst Toy.train_4_8_16, snd Toy.train_4_8_16) /\
  nth_error (backward_losses (calls (snd Toy.train_4_8_16))) 2
    = Some (Toy.CritSoft (Toy.Out 0 8 8 0)
              (Toy.Softmax (Toy.Detach (Toy.Out 0 4 4 0)))) /\
  nth_error (backward_losses (calls (snd Toy.train_4_8_16))) 2
    <> Some (Toy.CritSoft (Toy.Out 0 8 8 0)
               (Toy.Softmax (Toy.Detach (Toy.Out 0 16 16 0)))).
Proof.
  split; [vm_compute; reflexivity|].
  assert (E : nth_error (backward_losses (calls (snd Toy.train_4_8_16))) 2
              = Some (Toy.CritSoft (Toy.Out 0 8 8 0)
                        (Toy.Softmax (Toy.Detach (Toy.Out 0 4 4 0)))))
    by (vm_compute; reflexivity).
  rewrite E. split; [reflexivity|]. discriminate.
Qed.

(** ** The epoch loop *)

(** C8: in the run asked for three epochs, with one training batch and
    one validation batch, no checkpoint is saved and no summary line is
    written.  The training pass of the first epoch takes its optimizer
    step; the evaluation pass over the training data that follows it
    (line 111) stops at the read of [epsilon] (line 188), and the
    [NameError] ends [main] before lines 119-134 are reached. *)
Theorem three_epochs_save_no_checkpoint :
  exists r : Run (T := Toy.types),
    Toy.three_epochs = Raised NameError (Running r) /\
    saved r = [] /\ logged r = [] /\ best_prec1 r = None /\
    count_calls is_step (calls (world r)) = 1%nat /\
    PyList.last (calls (world r)) = Ok (CallGetActivations false false 4 4).
Proof.
  eexists. split; [vm_compute; reflexivity|].
  repeat split; vm_compute; reflexivity.
Qed.

(** * Further properties of the schedule *)

Module ParseFacts.

Lemma split_acc_length (s : string) :
  forall cur, length (PyStr.split_acc cur s) = S (count_commas s).
Proof.
  induction s as [|c s IH]; intros cur; simpl; [reflexivity|].
  destruct (Ascii.eqb c PyStr.comma); simpl; now rewrite IH.
Qed.

Lemma mapM_length {A B : Type} (f : A -> result B) (l : list A) :
  forall l', mapM f l = Ok l' -> length l' = length l.
Proof.
  induction l as [|a l IH]; intros l' H; simpl in H.
  - now injection H as <-.
  - destruct (f a) as [b|e]; simpl in H; [|discriminate].
    destruct (mapM f l) as [bs|e]; simpl in H; [|discriminate].
    injection H as <-. simpl. f_equal. now apply IH.
Qed.

Lemma mapM_raise {A B : Type} (f : A -> result B) (l : list A) (e0 : exn) :
  (forall a e, f a = Raise e -> e = e0) ->
  (exists a, In a l /\ f a = Raise e0) ->
  mapM f l = Raise e0.
Proof.
  intros Hf. induction l as [|a l IH]; intros (a0 & Hin & Ha0).
  - destruct Hin.
  - simpl. destruct (f a) as [b|e] eqn:Ea; simpl.
    + destruct Hin as [->|Hin]; [congruence|].
      rewrite IH; [reflexivity|]. now exists a0.
    + f_equal. now apply Hf in Ea.
Qed.

Lemma int_raises_ValueError (l : list ascii) (e : exn) :
  PyStr.int l = Raise e -> e = ValueError.
Proof.
  unfold PyStr.int.
  destruct (match PyStr.strip l with
            | [] => (false, [])
            | c :: r =>
                if Ascii.eqb c "-" then (true, r)
                else if Ascii.eqb c "+" then (false, r)
                else (false, PyStr.strip l)
            end) as [neg ds].
  destruct (PyStr.digits false 0 ds); [|intros H; congruence].
  destruct (PyStr.max_str_digits <? _); intros H; congruence.
Qed.

Lemma int_blank (l : list ascii) :
  PyStr.strip l = [] -> PyStr.int l = Raise ValueError.
Proof. unfold PyStr.int. now intros ->. Qed.

Lemma sort_length (l : list Z) : length (Schedule.sort l) = length l.
Proof.
  symmetry. apply Permutation_length, ScheduleFacts.sort_perm.
Qed.

End ParseFacts.

(** X1: a request that parses gives one level per comma-separated field,
    one more than the text has commas; the list is never empty, so the
    subscripts [bit_width_list[-1]] of [forward] cannot fail. *)
Theorem parsed_schedule_has_a_level_per_field (s : string) (l : list Z) :
  Schedule.bit_width_list s = Ok l ->
  length l = S (count_commas s) /\ exists top, PyList.last l = Ok top.
Proof.
  unfold Schedule.bit_width_list, Schedule.parse, PyStr.split. intros H.
  destruct (mapM PyStr.int _) as [l0|e] eqn:E; simpl in H; [|discriminate].
  injection H as <-. apply ParseFacts.mapM_length in E.
  rewrite ParseFacts.split_acc_length in E.
  assert (L : length (Schedule.sort l0) = S (count_commas s))
    by now rewrite ParseFacts.sort_length.
  split; [exact L|]. apply PyListFacts.last_ok.
  intros H0. now rewrite H0 in L.
Qed.

Lemma parsed_schedule_has_a_level_per_field_witness :
  Schedule.bit_width_list "8, 4,32" = Ok [4; 8; 32] /\
  length [4; 8; 32] = S (count_commas "8, 4,32") /\
  exists top, PyList.last [4; 8; 32] = Ok top.
Proof.
  split; [reflexivity|].
  apply (parsed_schedule_has_a_level_per_field "8, 4,32" [4; 8; 32]).
  reflexivity.
Defined.

(** X2: parsing the request raises nothing but [ValueError], and raises
    it whenever one of the comma-separated fields is empty or blank, as
    after a trailing or a doubled comma. *)
Theorem blank_field_raises_ValueError (s : string) :
  (forall e, Schedule.bit_width_list s = Raise e -> e = ValueError) /\
  ((exists f, In f (PyStr.split s) /\ PyStr.strip f = []) ->
   Schedule.bit_width_list s = Raise ValueError).
Proof.
  unfold Schedule.bit_width_list, Schedule.parse. split.
  - intros e H.
    destruct (mapM PyStr.int (PyStr.split s)) as [l|e0] eqn:E; simpl in H;
      [discriminate|].
    injection H as <-. revert e0 E.
    generalize (PyStr.split s) as fs.
    induction fs as [|f fs IH]; intros e0 E; simpl in E; [discriminate|].
    destruct (PyStr.int f) as [b|e1] eqn:Ef; simpl in E.
    + destruct (mapM PyStr.int fs) as [bs|e2]; simpl in E; [discriminate|].
      injection E as <-. now apply IH.
    + injection E as <-. now apply ParseFacts.int_raises_ValueError in Ef.
  - intros (f & Hin & Hblank).
    rewrite (ParseFacts.mapM_raise PyStr.int _ ValueError); [reflexivity| |].
    + apply ParseFacts.int_raises_ValueError.
    + exists f. split; [exact Hin|]. now apply ParseFacts.int_blank.
Qed.

Lemma sorted_snoc (l : list Z) (x : Z) :
  StronglySorted Z.le (l ++ [x]) <->
  StronglySorted Z.le l /\ Forall (fun b => b <= x) l.
Proof.
  induction l as [|a l IH]; simpl.
  - split; [intros _; split; constructor|intros _; repeat constructor].
  - split.
    + intros H. inversion H as [|? ? Hs Hall]; subst.
      apply IH in Hs as [Hs Hle]. apply Forall_app in Hall as [Hall Hx].
      split; [now constructor|].
      constructor; [now inversion Hx|exact Hle].
    + intros [Hs Hle]. inversion Hs as [|? ? Hs' Hall]; subst.
      inversion Hle as [|? ? Hax Hle']; subst.
      constructor; [apply IH; now split|].
      apply Forall_app. split; [exact Hall|]. now constructor.
Qed.

(** X3: the list the model is built for is left alone when the request
    holds 32 and gets 32 as its last element otherwise; building it twice
    changes nothing more; and it is ascending exactly when 32 was
    requested or no requested level exceeds 32: after a request such as
    64 the appended 32 stands behind a greater level. *)
Theorem model_list_ends_with_32_when_appended (P : list Z) :
  (In 32 P -> snd (Schedule.build P) = fst (Schedule.build P)) /\
  (~ In 32 P -> snd (Schedule.build P) = fst (Schedule.build P) ++ [32]) /\
  Schedule.bw_list (snd (Schedule.build P)) = snd (Schedule.build P) /\
  (StronglySorted Z.le (snd (Schedule.build P)) <->
   In 32 P \/ Forall (fun b => b <= 32) P).
Proof.
  simpl. unfold Schedule.bw_list.
  assert (Hin : In 32 (Schedule.sort P) <-> In 32 P).
  { split; apply Permutation_in;
      [symmetry|]; apply ScheduleFacts.sort_perm. }
  destruct (Schedule.mem 32 (Schedule.sort P)) eqn:E; simpl.
  - pose proof E as E'. apply ScheduleFacts.mem_In in E'.
    split; [reflexivity|].
    split; [intros H; apply Hin in E'; contradiction|].
    split.
    + now rewrite E.
    + split; [intros _; left; now apply Hin|].
      intros _. apply ScheduleFacts.sort_sorted.
  - assert (Hout : ~ In 32 (Schedule.sort P)).
    { intros H. apply ScheduleFacts.mem_In in H. congruence. }
    split; [intros H; apply Hin in H; contradiction|].
    split; [reflexivity|]. split.
    + assert (M : Schedule.mem 32 (Schedule.sort P ++ [32]) = true).
      { apply ScheduleFacts.mem_In, in_or_app. right. now left. }
      now rewrite M.
    + rewrite sorted_snoc. split.
      * intros [_ Hle]. right.
        eapply Permutation_Forall; [|exact Hle].
        symmetry. apply ScheduleFacts.sort_perm.
      * intros [H|Hle]; [apply Hin in H; contradiction|].
        split; [apply ScheduleFacts.sort_sorted|].
        eapply Permutation_Forall; [|exact Hle].
        apply ScheduleFacts.sort_perm.
Qed.

Example model_list_after_64 : Schedule.build [64; 4] = ([4; 64], [4; 64; 32]).
Proof. reflexivity. Qed.

(** * Further properties of the training batch *)

Section TrainGradients.
Context {T : Types} {K : Torch}.

Lemma accumulate_app (ls ls' : list Tensor) (g : Grad) :
  accumulate (ls ++ ls') g = accumulate ls' (accumulate ls g).
Proof. unfold accumulate. apply fold_left_app. Qed.

Lemma train_levels_grad (x : Input) (y : Target)
    (rows : list (Z * LevelMeters)) :
  forall ts w rs w',
    train_levels x y ts rows w = Returned (rs, w') ->
    exists cs,
      calls w' = calls w ++ cs /\
      grad w' = accumulate (backward_losses cs) (grad w) /\
      (rows <> [] ->
       exists bw, PyList.last (map fst rows) = Ok bw /\
                  wbit (model w') = bw /\ abit (model w') = bw) /\
      (rows = [] -> w' = w) /\
      Forall2 (fun row r' =>
                 exists l p1 p5,
                   r' = update_hard l p1 p5 (size0 x) (snd row))
              rows rs.
Proof.
  induction rows as [|[bw r] rows IH]; intros ts w rs w' H; simpl in H.
  - injection H as <- <-. exists []. rewrite app_nil_r.
    repeat split; [congruence|constructor].
  - destruct (set_bits_inv bw w) as (w0 & E0 & W0 & A0 & P0 & T0 & C0 & G0 & O0).
    rewrite E0 in H. clear E0.
    destruct (do_get_activations true x w0) as [act_q w1] eqn:E1.
    apply do_get_activations_inv in E1 as (-> & C1 & P1 & T1 & W1 & A1 & G1 & O1).
    destruct (PyList.last (fst (get_activations true (model w0) x)))
      as [output|e] eqn:Eout; simpl in H; [|discriminate].
    destruct (do_backward_inv (criterion_soft output ts) w1)
      as (w2 & E2 & C2 & M2 & G2 & O2).
    rewrite E2 in H. clear E2.
    destruct (accuracy (data output) y) as [prec1 prec5].
    destruct (train_levels x y (softmax (detach output)) rows w2)
      as [[rs' w3]|e w3] eqn:E3; simpl in H; [|discriminate].
    injection H as <- <-.
    apply IH in E3 as (cs & C3 & G3 & Hne & Hnil & F3).
    exists ([CallGetActivations true (training (model w)) bw bw;
             CallBackward (criterion_soft output ts)] ++ cs).
    split; [rewrite C3, C2, C1, C0, T0, W0, A0; now rewrite <- !app_assoc|].
    split.
    { rewrite backward_losses_app, accumulate_app, G3, G2, G1, G0.
      reflexivity. }
    split.
    { intros _. destruct rows as [|row rows'].
      - rewrite (Hnil eq_refl). exists bw. rewrite M2. simpl.
        split; [reflexivity|]. split; congruence.
      - destruct Hne as (b & Hb & Hw & Ha); [discriminate|].
        exists b. split; [exact Hb|]. now split. }
    split; [discriminate|].
    constructor; [|exact F3].
    cbn [snd]. do 3 eexists. reflexivity.
Qed.

(** X4: the single optimizer step of a training batch is taken on the
    gradients that [backward] has accumulated, from the buffers cleared
    by [zero_grad], over the hard loss of the 32-bit reference pass and
    then the soft loss of every level of the list in order; the weights
    and the optimizer state after the batch are what that step returns. *)
Theorem step_uses_gradients_of_every_level (bwl : list Z) (x : Input)
    (y : Target) (ms ms' : list LevelMeters) (w w' : World) :
  train_batch bwl x y ms w = Returned (ms', w') ->
  length ms = length bwl ->
  exists (out_ref : Tensor) (outs : list Tensor),
    output_at true w x 32 out_ref /\
    Forall2 (output_at true w x) bwl outs /\
    grad w' = accumulate (criterion out_ref y :: cascade out_ref outs)
                         (zero_grad (grad w)) /\
    params (model w') = snd (step (opt w) (params (model w)) (grad w')) /\
    opt w' = fst (step (opt w) (params (model w)) (grad w')).
Proof.
  intros H L.
  destruct (train_batch_returned _ _ _ _ _ _ _ H L)
    as (out_ref & outs & cs & R & F & C & B & _).
  exists out_ref, outs. split; [exact R|]. split; [exact F|].
  unfold train_batch in H.
  destruct (do_zero_grad_inv w) as (wz & Ez & Cz & Mz & Gz & Oz).
  rewrite Ez in H. clear Ez.
  destruct (set_bits_inv 32 wz) as (w0 & E0 & W0 & A0 & P0 & T0 & C0 & G0 & O0).
  rewrite E0 in H. clear E0.
  destruct (do_get_activations true x w0) as [act_full w1] eqn:E1.
  apply do_get_activations_inv in E1 as (-> & C1 & P1 & T1 & W1 & A1 & G1 & O1).
  destruct (PyList.last _) as [output|e] eqn:Eout; simpl in H; [|discriminate].
  destruct (do_backward_inv (criterion output y) w1)
    as (w2 & E2 & C2 & M2 & G2 & O2).
  rewrite E2 in H. clear E2.
  destruct (accuracy (data output) y) as [prec1 prec5].
  destruct (PyList.update_last _ ms) as [ms1|e] eqn:Eu; simpl in H;
    [|discriminate].
  destruct (train_levels _ _ _ _ _) as [[ms2 w3]|e w3] eqn:E3; simpl in H;
    [|discriminate].
  injection H as <- <-.
  pose proof (train_levels_returned _ _ _ _ _ _ _ E3)
    as (_ & P3 & _ & O3 & _).
  apply train_levels_grad in E3 as (cs3 & C3 & G3 & _).
  destruct (do_step_inv w3) as (w4 & E4 & C4 & P4 & O4 & G4 & _).
  rewrite E4 in *. clear E4.
  assert (Ecs : cs = [CallZeroGrad] ++
                     [CallGetActivations true (training (model w0))
                        (wbit (model w0)) (abit (model w0))] ++
                     [CallBackward (criterion output y)] ++ cs3 ++ [CallStep]).
  { apply (app_inv_head (calls w)). rewrite <- C, C4, C3, C2, C1, C0, Cz.
    now rewrite <- !app_assoc. }
  assert (Gw3 : grad w3 = accumulate (criterion out_ref y :: cascade out_ref outs)
                                     (zero_grad (grad w))).
  { rewrite <- B, Ecs. cbn [app backward_losses].
    rewrite backward_losses_app. cbn [backward_losses]. rewrite app_nil_r.
    cbn [accumulate fold_left]. fold (accumulate (backward_losses cs3)).
    rewrite G3, G2, G1, G0, Gz. reflexivity. }
  assert (Pw : params (model w3) = params (model w)) by congruence.
  assert (Ow : opt w3 = opt w) by congruence.
  rewrite G4, P4, O4, Pw, Ow. now repeat split.
Qed.

End TrainGradients.

Lemma step_uses_gradients_of_every_level_witness :
  (train_batch (T := Toy.types) (K := Toy.torch) [4; 8] 0%nat 0%nat
     (fresh_meters (K := Toy.torch) [4; 8]) Toy.w0
     = Returned (fst Toy.train_4_8, snd Toy.train_4_8) /\
   length (fresh_meters (K := Toy.torch) [4; 8]) = length [4; 8]) /\
  exists (out_ref : Toy.term) (outs : list Toy.term),
    output_at (K := Toy.torch) true Toy.w0 0%nat 32 out_ref /\
    Forall2 (output_at (K := Toy.torch) true Toy.w0 0%nat) [4; 8] outs /\
    grad (snd Toy.train_4_8)
      = accumulate (K := Toy.torch)
          (Toy.Crit out_ref 0%nat :: cascade (K := Toy.torch) out_ref outs)
          [] /\
    params (model (snd Toy.train_4_8)) = 1%nat /\
    opt (snd Toy.train_4_8) = 1%nat.
Proof.
  split.
  { split; vm_compute; reflexivity. }
  apply (step_uses_gradients_of_every_level (T := Toy.types) (K := Toy.torch)
           [4; 8] 0%nat 0%nat (fresh_meters (K := Toy.torch) [4; 8])
           (fst Toy.train_4_8) Toy.w0 (snd Toy.train_4_8));
    vm_compute; reflexivity.
Defined.

Section TrainMeters.
Context {T : Types} {K : Torch}.

Lemma update_last_snoc {A : Type} (f : A -> A) (l l' : list A) :
  PyList.update_last f l = Ok l' ->
  exists front a, l = front ++ [a] /\ l' = front ++ [f a].
Proof.
  revert l'. induction l as [|a l IH]; intros l' H; [discriminate|].
  destruct l as [|b l].
  - injection H as <-. now exists [], a.
  - change (PyList.update_last f (a :: b :: l))
      with (r <- PyList.update_last f (b :: l) ;; Ok (a :: r)) in H.
    destruct (PyList.update_last f (b :: l)) as [r|e]; simpl in H;
      [|discriminate].
    injection H as <-.
    destruct (IH r eq_refl) as (front & c & E1 & E2).
    exists (a :: front), c. simpl. now rewrite E1, E2.
Qed.

Lemma Forall2_zip_snd {A B C : Type} (Q : B -> C -> Prop) (l : list A) :
  forall (l' : list B) (rs : list C),
    length l' = length l ->
    Forall2 (fun row r' => Q (snd row) r') (combine l l') rs ->
    Forall2 Q l' rs.
Proof.
  induction l as [|a l IH]; intros [|b l'] rs L F; simpl in *;
    try discriminate.
  - inversion F. constructor.
  - inversion F as [|? r ? rs' H1 H2]; subst. constructor; [exact H1|].
    apply IH; [congruence|exact H2].
Qed.

Lemma nth_error_snoc {A : Type} (l l' : list A) (a : A) :
  nth_error (l ++ a :: l') (length l) = Some a.
Proof. induction l as [|b l IH]; [reflexivity|exact IH]. Qed.

Lemma hard_updates_once (l p1 p5 : Scalar) (n : nat) (r : LevelMeters) :
  hard_updates 1 r (update_hard l p1 p5 n r).
Proof.
  unfold hard_updates, update_hard, update. cbn.
  rewrite !length_app. cbn. repeat split; lia.
Qed.

(** Lines 215-217 and 229-232: what a training batch does to the meters. *)
Lemma train_batch_meters (bwl : list Z) (x : Input)
    (y : Target) (ms ms' : list LevelMeters) (w w' : World) :
  train_batch bwl x y ms w = Returned (ms', w') ->
  length ms = length bwl ->
  exists (front front' : list LevelMeters) (r r' : LevelMeters)
         (out_ref : Tensor),
    ms = front ++ [r] /\ ms' = front' ++ [r'] /\
    output_at true w x 32 out_ref /\
    Forall2 (hard_updates 1) front front' /\
    hard_updates 2 r r' /\
    nth_error (am_l r') (length (am_l r))
      = Some (item (criterion out_ref y), size0 x) /\
    nth_error (am_t1 r') (length (am_t1 r))
      = Some (item (fst (accuracy (data out_ref) y)), size0 x) /\
    nth_error (am_t5 r') (length (am_t5 r))
      = Some (item (snd (accuracy (data out_ref) y)), size0 x).
Proof.
  unfold train_batch. intros H L.
  destruct (do_zero_grad_inv w) as (wz & Ez & Cz & Mz & _ & _).
  rewrite Ez in H. clear Ez.
  destruct (set_bits_inv 32 wz) as (w0 & E0 & W0 & A0 & P0 & T0 & C0 & _).
  rewrite E0 in H. clear E0.
  destruct (do_get_activations true x w0) as [act_full w1] eqn:E1.
  apply do_get_activations_inv in E1 as (-> & C1 & P1 & T1 & W1 & A1 & _).
  destruct (PyList.last _) as [output|e] eqn:Eout; simpl in H; [|discriminate].
  destruct (do_backward_inv (criterion output y) w1) as (w2 & E2 & C2 & M2 & _).
  rewrite E2 in H. clear E2.
  destruct (accuracy (data output) y) as [prec1 prec5] eqn:Eacc.
  destruct (PyList.update_last _ ms) as [ms1|e] eqn:Eu; simpl in H;
    [|discriminate].
  pose proof (update_last_length _ _ _ Eu) as L1.
  apply update_last_snoc in Eu as (front & r & -> & ->).
  destruct (train_levels _ _ _ _ _) as [[ms2 w3]|e w3] eqn:E3; simpl in H;
    [|discriminate].
  injection H as <- <-.
  apply train_levels_grad in E3 as (_ & _ & _ & _ & _ & F3).
  apply (Forall2_zip_snd
           (fun r r' => exists l p1 p5, r' = update_hard l p1 p5 (size0 x) r))
    in F3; [|congruence].
  apply Forall2_app_inv_l in F3 as (front' & tl & F1 & F2 & ->).
  inversion F2 as [|? r' ? tl' (l & p1 & p5 & Hr) Hnil]; subst.
  inversion Hnil; subst.
  exists front, front', r,
    (update_hard l p1 p5 (size0 x)
       (update_hard (item (criterion output y)) (item prec1) (item prec5)
          (size0 x) r)), output.
  rewrite Mz in P0, T0.
  split; [reflexivity|]. split; [reflexivity|].
  split; [exists (model w0); now repeat split|].
  split.
  { eapply Forall2_impl; [|exact F1].
    intros a b (l' & p1' & p5' & ->). apply hard_updates_once. }
  split.
  { unfold hard_updates, update_hard, update. cbn.
    rewrite !length_app. cbn. repeat split; lia. }
  unfold update_hard, update. cbn.
  rewrite <- !app_assoc, Eacc. cbn.
  rewrite !nth_error_snoc. now repeat split.
Qed.

(** X5: a training batch that returns has added one update to the loss
    and accuracy meters of every level but the last one of the list, and
    two to those of the last one: lines 215-217 write the hard loss and
    the accuracy of the 32-bit reference pass into the meters at index
    [-1] before the loop of line 220 adds that level's own.  The slack
    meters are left as they were. *)
Theorem training_batch_meters_last_level_twice (bwl : list Z) (x : Input)
    (y : Target) (ms ms' : list LevelMeters) (w w' : World) :
  train_batch bwl x y ms w = Returned (ms', w') ->
  length ms = length bwl ->
  exists (front front' : list LevelMeters) (r r' : LevelMeters)
         (out_ref : Tensor),
    ms = front ++ [r] /\ ms' = front' ++ [r'] /\
    output_at true w x 32 out_ref /\
    Forall2 (hard_updates 1) front front' /\
    hard_updates 2 r r' /\
    nth_error (am_l r') (length (am_l r))
      = Some (item (criterion out_ref y), size0 x) /\
    nth_error (am_t1 r') (length (am_t1 r))
      = Some (item (fst (accuracy (data out_ref) y)), size0 x) /\
    nth_error (am_t5 r') (length (am_t5 r))
      = Some (item (snd (accuracy (data out_ref) y)), size0 x).
Proof. apply train_batch_meters. Qed.

End TrainMeters.

Lemma training_batch_meters_last_level_twice_witness :
  (train_batch (T := Toy.types) (K := Toy.torch) [4; 8] 0%nat 0%nat
     (fresh_meters (K := Toy.torch) [4; 8]) Toy.w0
     = Returned (fst Toy.train_4_8, snd Toy.train_4_8) /\
   length (fresh_meters (K := Toy.torch) [4; 8]) = length [4; 8]) /\
  exists (front front' : list LevelMeters) (r r' : LevelMeters)
         (out_ref : Toy.term),
    fresh_meters (K := Toy.torch) [4; 8] = front ++ [r] /\
    fst Toy.train_4_8 = front' ++ [r'] /\
    output_at (K := Toy.torch) true Toy.w0 0%nat 32 out_ref /\
    Forall2 (hard_updates 1) front front' /\
    hard_updates 2 r r' /\
    nth_error (am_l r') (length (am_l r))
      = Some (Qred (Toy.value (Toy.Crit out_ref 0%nat)), 2%nat) /\
    nth_error (am_t1 r') (length (am_t1 r))
      = Some (Qred (Toy.value (Toy.Prec1 (Toy.Data out_ref) 0%nat)), 2%nat) /\
    nth_error (am_t5 r') (length (am_t5 r))
      = Some (Qred (Toy.value (Toy.Prec5 (Toy.Data out_ref) 0%nat)), 2%nat).
Proof.
  split.
  { split; vm_compute; reflexivity. }
  apply (training_batch_meters_last_level_twice
           (T := Toy.types) (K := Toy.torch)
           [4; 8] 0%nat 0%nat (fresh_meters (K := Toy.torch) [4; 8])
           (fst Toy.train_4_8) Toy.w0 (snd Toy.train_4_8));
    vm_compute; reflexivity.
Defined.

(** * What [forward] raises, and when it returns *)

Section ForwardRaises.
Context {T : Types} {K : Torch}.

Lemma eval_levels_raise (x : Input) (y : Target) (act_full : list Tensor)
    (target_soft : Tensor) (rows : list (Z * LevelMeters)) :
  forall w e w',
    eval_levels x y act_full target_soft rows w = Raised e w' ->
    Forall (fun row => length (slm (snd row)) = S get_num_layers) rows ->
    (e = IndexError /\
     ((length act_full < S get_num_layers)%nat \/
      exists m, (length (fst (get_activations false m x))
                 < S get_num_layers)%nat)) \/
    (e = NameError /\ (1 <= get_num_layers)%nat).
Proof.
  induction rows as [|[bw r] rows IH]; intros w e w' H F; simpl in H;
    [discriminate|].
  inversion F as [|? ? Lr F']; subst. cbn [snd] in Lr.
  destruct (set_bits_inv bw w) as (w0 & E0 & _).
  rewrite E0 in H. clear E0.
  destruct (do_call false x w0) as [output w1] eqn:E1.
  destruct (accuracy (data output) y) as [prec1 prec5].
  destruct (do_get_activations false x w1) as [act_q w2] eqn:E2.
  apply do_get_activations_inv in E2 as (-> & _).
  cbn [slm update_hard] in H.
  destruct (PyList.update_last _ (slm r)) as [s1|e1] eqn:Eu; simpl in H.
  2:{ apply RaiseFacts.update_last_raise in Eu as [_ Es].
      rewrite Es in Lr. discriminate. }
  destruct (slack_loop _ _ _ _ _ s1) as [s2|e2] eqn:Es; simpl in H.
  2:{ injection H as <- _. unfold PyList.range in Es.
      apply slack_loop_raise in Es as (l & ls' & El & Hs).
      destruct get_num_layers as [|n]; [discriminate|].
      cbn [seq] in El. injection El as <- _.
      destruct Hs as [[-> [Hq|Hf]]| ->].
      - left. split; [reflexivity|]. right. exists (model w1). lia.
      - left. split; [reflexivity|]. left. lia.
      - right. split; [reflexivity|lia]. }
  destruct (eval_levels x y act_full target_soft rows w2)
    as [[rs w3]|e3 w3] eqn:E3; simpl in H; [discriminate|].
  injection H as <- _. eapply IH; eassumption.
Qed.

Lemma Forall_zip_snd {A B : Type} (P : B -> Prop) (l : list A) (l' : list B) :
  Forall P l' -> Forall (fun row => P (snd row)) (combine l l').
Proof.
  intros F. apply Forall_forall. intros [a b] Hin.
  apply in_combine_r in Hin. rewrite Forall_forall in F. now apply F.
Qed.

Lemma eval_batch_raise (bwl : list Z) (x : Input) (y : Target)
    (ms : list LevelMeters) (w w' : World) (e : exn) :
  eval_batch bwl x y ms w = Raised e w' ->
  bwl <> [] -> shaped bwl ms ->
  (e = IndexError /\ trace_too_short) \/
  (e = NameError /\ (1 <= get_num_layers)%nat).
Proof.
  unfold eval_batch. intros H Hne [L F].
  destruct (PyList.last bwl) as [top|e0] eqn:Et; simpl in H.
  2:{ apply RaiseFacts.last_raise in Et as [_ Et]. contradiction. }
  destruct (do_get_activations false x _) as [act_full w1] eqn:E1.
  apply do_get_activations_inv in E1 as (-> & _).
  destruct (do_call false x w1) as [output w2] eqn:E2.
  destruct (eval_levels _ _ _ _ _ _) as [[mid w3]|e3 w3] eqn:E3; simpl in H;
    [discriminate|].
  injection H as <- _.
  apply eval_levels_raise in E3 as [[-> Hs]|Hn];
    [| |exact (Forall_zip_snd
                 (fun r => length (slm r) = S get_num_layers) bwl ms F)].
  - left. split; [reflexivity|].
    destruct Hs as [Hs|[m Hs]].
    + eexists false, _, x. exact Hs.
    + now exists false, m, x.
  - now right.
Qed.

Lemma eval_levels_shape (x : Input) (y : Target) (act_full : list Tensor)
    (target_soft : Tensor) (rows : list (Z * LevelMeters)) :
  forall w rs w',
    eval_levels x y act_full target_soft rows w = Returned (rs, w') ->
    Forall2 (fun row r' => length (slm r') = length (slm (snd row))) rows rs.
Proof.
  induction rows as [|[bw r] rows IH]; intros w rs w' H; simpl in H.
  - injection H as <- _. constructor.
  - destruct (set_bits_inv bw w) as (w0 & E0 & _).
    rewrite E0 in H. clear E0.
    destruct (do_call false x w0) as [output w1].
    destruct (accuracy (data output) y) as [prec1 prec5].
    destruct (do_get_activations false x w1) as [act_q w2].
    cbn [slm update_hard am_l am_t1 am_t5] in H.
    destruct (PyList.update_last _ (slm r)) as [s1|e1] eqn:Eu; simpl in H;
      [|discriminate].
    apply update_last_length in Eu.
    destruct (slack_loop _ _ _ _ _ s1) as [s2|e2] eqn:Es; simpl in H;
      [|discriminate].
    apply slack_loop_returned in Es as [_ ->].
    destruct (eval_levels x y act_full target_soft rows w2)
      as [[rs' w3]|e3 w3] eqn:E3; simpl in H; [|discriminate].
    injection H as <- _. constructor; [exact Eu|].
    eapply IH. exact E3.
Qed.

Lemma else_levels_shape (x : Input) (y : Target)
    (rows : list (Z * LevelMeters)) :
  forall w,
    Forall2 (fun row r' => length (slm r') = length (slm (snd row)))
            rows (fst (else_levels x y rows w)).
Proof.
  induction rows as [|[bw r] rows IH]; intros w; simpl; [constructor|].
  destruct (do_call false x _) as [output w1].
  destruct (accuracy (data output) y) as [prec1 prec5]. cbn [fst].
  constructor; [reflexivity|apply IH].
Qed.

Lemma train_levels_raise (x : Input) (y : Target)
    (rows : list (Z * LevelMeters)) :
  forall ts w e w',
    train_levels x y ts rows w = Raised e w' ->
    e = IndexError /\ exists m, fst (get_activations true m x) = [].
Proof.
  induction rows as [|[bw r] rows IH]; intros ts w e w' H; simpl in H;
    [discriminate|].
  destruct (set_bits_inv bw w) as (w0 & E0 & _).
  rewrite E0 in H. clear E0.
  destruct (do_get_activations true x w0) as [act_q w1] eqn:E1.
  apply do_get_activations_inv in E1 as (-> & _).
  destruct (PyList.last _) as [output|e0] eqn:Eout; simpl in H.
  2:{ injection H as <- _. apply RaiseFacts.last_raise in Eout as [-> Eout].
      split; [reflexivity|]. now exists (model w0). }
  destruct (accuracy (data output) y) as [prec1 prec5].
  destruct (train_levels x y _ rows _) as [[rs w3]|e3 w3] eqn:E3; simpl in H;
    [discriminate|].
  injection H as <- _. eapply IH; eassumption.
Qed.

Lemma train_batch_raise (bwl : list Z) (x : Input) (y : Target)
    (ms : list LevelMeters) (w w' : World) (e : exn) :
  train_batch bwl x y ms w = Raised e w' ->
  ms <> [] ->
  e = IndexError /\ exists m, fst (get_activations true m x) = [].
Proof.
  unfold train_batch. intros H Hne.
  destruct (do_zero_grad_inv w) as (wz & Ez & _).
  rewrite Ez in H. clear Ez.
  destruct (set_bits_inv 32 wz) as (w0 & E0 & _).
  rewrite E0 in H. clear E0.
  destruct (do_get_activations true x w0) as [act_full w1] eqn:E1.
  apply do_get_activations_inv in E1 as (-> & _).
  destruct (PyList.last _) as [output|e0] eqn:Eout; simpl in H.
  2:{ injection H as <- _. apply RaiseFacts.last_raise in Eout as [-> Eout].
      split; [reflexivity|]. now exists (model w0). }
  destruct (accuracy (data output) y) as [prec1 prec5].
  destruct (PyList.update_last _ ms) as [ms1|e1] eqn:Eu; simpl in H.
  2:{ apply RaiseFacts.update_last_raise in Eu as [_ Eu]. contradiction. }
  destruct (train_levels _ _ _ _ _) as [[ms2 w3]|e3 w3] eqn:E3; simpl in H;
    [discriminate|].
  injection H as <- _. eapply train_levels_raise. exact E3.
Qed.

Lemma empty_trace_too_short (m : Model) (x : Input) :
  fst (get_activations true m x) = [] -> trace_too_short.
Proof. intros H. exists true, m, x. rewrite H. simpl. lia. Qed.

Lemma Forall2_length_shape (get : LevelMeters -> nat) (n : nat)
    (l l' : list LevelMeters) :
  Forall2 (fun r r' => get r' = get r) l l' ->
  Forall (fun r => get r = n) l -> Forall (fun r => get r = n) l'.
Proof.
  intros F2. eapply Forall2_Forall_step.
  eapply Forall2_impl; [|exact F2]. intros a b E Ha. congruence.
Qed.

(** Both branches keep the shape of the meters. *)
Lemma eval_batch_shaped (bwl : list Z) (x : Input) (y : Target)
    (ms ms' : list LevelMeters) (w w' : World) :
  eval_batch bwl x y ms w = Returned (ms', w') ->
  shaped bwl ms -> shaped bwl ms'.
Proof.
  unfold eval_batch. intros H [L F].
  destruct (PyList.last bwl) as [top|e0]; simpl in H; [|discriminate].
  destruct (do_get_activations false x _) as [act_full w1].
  destruct (do_call false x w1) as [output w2].
  destruct (eval_levels _ _ _ _ _ _) as [[mid w3]|e3 w3] eqn:E3; simpl in H;
    [|discriminate].
  apply eval_levels_shape in E3.
  assert (Lm : length mid = length bwl)
    by (eapply Forall2_zip_length; [exact L|exact E3]).
  apply (Forall2_zip_snd
           (fun r r' => length (slm r') = length (slm r))) in E3;
    [|exact L].
  injection H as H.
  pose proof (else_levels_shape x y (combine bwl mid)
                (set_abit 32 (set_wbit 32 w3))) as F5.
  rewrite H in F5. cbn [fst] in F5.
  assert (L' : length ms' = length bwl)
    by (eapply Forall2_zip_length; [exact Lm|exact F5]).
  apply (Forall2_zip_snd
           (fun r r' => length (slm r') = length (slm r))) in F5;
    [|exact Lm].
  split; [exact L'|].
  eapply (Forall2_length_shape (fun r => length (slm r))); [exact F5|].
  eapply (Forall2_length_shape (fun r => length (slm r))); [exact E3|exact F].
Qed.

Lemma train_batch_shaped (bwl : list Z) (x : Input) (y : Target)
    (ms ms' : list LevelMeters) (w w' : World) :
  train_batch bwl x y ms w = Returned (ms', w') ->
  shaped bwl ms -> shaped bwl ms'.
Proof.
  intros H [L F].
  destruct (train_batch_meters bwl x y ms ms' w w' H L)
    as (front & front' & r & r' & out_ref & -> & -> & _ & F1 & F2 & _).
  split.
  - apply Forall2_length in F1. rewrite length_app in *. simpl in *. lia.
  - apply Forall_app in F as [Ff Fr]. apply Forall_app. split.
    + eapply Forall2_Forall_step; [|exact Ff].
      eapply Forall2_impl; [|exact F1].
      intros a b (E & _) Ha. congruence.
    + constructor; [|constructor]. inversion Fr; subst.
      destruct F2 as (E & _). congruence.
Qed.

End ForwardRaises.

Section ForwardOutcome.
Context {T : Types} {K : Torch}.

Lemma bit_width_list_nonempty (s : string) (l : list Z) :
  Schedule.bit_width_list s = Ok l -> l <> [].
Proof.
  unfold Schedule.bit_width_list, Schedule.parse, PyStr.split. intros H.
  destruct (mapM PyStr.int _) as [l0|e] eqn:E; simpl in H; [|discriminate].
  injection H as <-. apply ParseFacts.mapM_length in E.
  rewrite ParseFacts.split_acc_length in E.
  intros H0. apply (f_equal (@length Z)) in H0.
  rewrite ParseFacts.sort_length, E in H0. discriminate.
Qed.

Lemma bit_width_list_raise (s : string) (e : exn) :
  Schedule.bit_width_list s = Raise e -> e = ValueError.
Proof.
  unfold Schedule.bit_width_list, Schedule.parse. intros H.
  destruct (mapM PyStr.int (PyStr.split s)) as [l|e0] eqn:E; simpl in H;
    [discriminate|].
  injection H as <-. revert e0 E.
  generalize (PyStr.split s) as fs.
  induction fs as [|f fs IH]; intros e0 E; simpl in E; [discriminate|].
  destruct (PyStr.int f) as [b|e1] eqn:Ef; simpl in E.
  - destruct (mapM PyStr.int fs) as [bs|e2]; simpl in E; [discriminate|].
    injection E as <-. now apply IH.
  - injection E as <-. now apply ParseFacts.int_raises_ValueError in Ef.
Qed.

Lemma shaped_nonempty (bwl : list Z) (ms : list LevelMeters) :
  bwl <> [] -> shaped bwl ms -> ms <> [].
Proof. intros Hne [L _] ->. destruct bwl; [contradiction|discriminate]. Qed.

Lemma fresh_meters_shaped (bwl : list Z) : shaped bwl (fresh_meters bwl).
Proof.
  split; [apply length_map|].
  apply Forall_forall. intros r Hr. apply in_map_iff in Hr as (bw & <- & _).
  simpl. rewrite repeat_length. lia.
Qed.

Lemma batches_returned_shaped (is_training : bool) (a : Args) (bwl : list Z)
    (data_loader : list (Input * Target)) :
  forall i ms w ms' w',
    batches is_training a bwl i data_loader ms w = Returned (ms', w') ->
    shaped bwl ms -> shaped bwl ms'.
Proof.
  induction data_loader as [|[x y] rest IH]; intros i ms w ms' w' H S0;
    simpl in H.
  - now injection H as <- <-.
  - destruct is_training; simpl in H.
    + destruct (train_batch bwl x y ms w) as [[ms1 w1]|e w1] eqn:E;
        simpl in H; [|discriminate].
      destruct (print_check i a); simpl in H; [|discriminate].
      eapply IH; [exact H|]. eapply train_batch_shaped; eassumption.
    + destruct (eval_batch bwl x y ms w) as [[ms1 w1]|e w1] eqn:E;
        simpl in H; [|discriminate].
      eapply IH; [exact H|]. eapply eval_batch_shaped; eassumption.
Qed.

Lemma batches_raise (is_training : bool) (a : Args) (bwl : list Z)
    (data_loader : list (Input * Target)) :
  forall i ms w e w',
    batches is_training a bwl i data_loader ms w = Raised e w' ->
    bwl <> [] -> shaped bwl ms ->
    (e = IndexError /\ trace_too_short) \/
    (e = NameError /\ is_training = false /\ (1 <= get_num_layers)%nat) \/
    (e = ZeroDivisionError /\ is_training = true /\ print_freq a = 0).
Proof.
  induction data_loader as [|[x y] rest IH]; intros i ms w e w' H Hne S0;
    simpl in H; [discriminate|].
  destruct is_training; simpl in H.
  - destruct (train_batch bwl x y ms w) as [[ms1 w1]|e1 w1] eqn:E;
      simpl in H.
    + unfold print_check in H.
      destruct (print_freq a =? 0) eqn:Ep; simpl in H.
      * injection H as <- _. right. right. apply Z.eqb_eq in Ep.
        now repeat split.
      * eapply IH; [exact H|exact Hne|].
        eapply train_batch_shaped; eassumption.
    + injection H as <- _. left.
      apply train_batch_raise in E as [-> [m Hm]];
        [|now apply (shaped_nonempty bwl)].
      split; [reflexivity|]. eapply empty_trace_too_short. exact Hm.
  - destruct (eval_batch bwl x y ms w) as [[ms1 w1]|e1 w1] eqn:E;
      simpl in H.
    + eapply IH; [exact H|exact Hne|].
      eapply eval_batch_shaped; eassumption.
    + injection H as <- _.
      apply eval_batch_raise in E as [E|[-> HL]]; try assumption.
      * now left.
      * right. left. now repeat split.
Qed.

(** Every way [forward] has of not returning. *)
Lemma forward_raise (data_loader : list (Input * Target)) (a : Args)
    (is_training : bool) (w w' : World) (e : exn) :
  forward data_loader a is_training w = Raised e w' ->
  (e = ValueError /\ w' = w /\
   Schedule.bit_width_list (bit_width_list a) = Raise ValueError) \/
  (e = IndexError /\ trace_too_short) \/
  (e = NameError /\ is_training = false /\ (1 <= get_num_layers)%nat /\
   data_loader <> []) \/
  (e = ZeroDivisionError /\ is_training = true /\ print_freq a = 0 /\
   data_loader <> []).
Proof.
  unfold forward, forward_meters. intros H.
  destruct (Schedule.bit_width_list (bit_width_list a)) as [bwl|e0] eqn:Eb;
    simpl in H.
  - destruct (batches _ _ _ _ _ _ _) as [[ms w1]|e1 w1] eqn:E; simpl in H;
      [discriminate|].
    injection H as <- _. right.
    assert (Hd : data_loader <> []) by (intros ->; discriminate E).
    apply batches_raise in E as [E|[(E1 & E2 & E3)|(E1 & E2 & E3)]];
      [now left| | | |apply fresh_meters_shaped].
    + right. left. now repeat split.
    + right. right. now repeat split.
    + eapply bit_width_list_nonempty. exact Eb.
  - injection H as <- <-. left.
    apply bit_width_list_raise in Eb as Ev. subst e0. now repeat split.
Qed.

Lemma complete_not_short : traces_complete -> ~ trace_too_short.
Proof. intros C (g & m & x & H). rewrite C in H. lia. Qed.

(** Lines 165-188 on a pass: the first batch of an evaluation pass stops
    at the read of [epsilon]. *)
Lemma forward_eval_NameError (a : Args) (bwl : list Z) (x : Input)
    (y : Target) (rest : list (Input * Target)) (w : World) :
  Schedule.bit_width_list (bit_width_list a) = Ok bwl ->
  traces_complete -> (1 <= get_num_layers)%nat ->
  exists (top b0 : Z) (w' : World),
    PyList.last bwl = Ok top /\ hd_error bwl = Some b0 /\
    forward ((x, y) :: rest) a false w = Raised NameError w' /\
    calls w' = calls w ++ [CallGetActivations false false top top;
                           CallModel false false top top;
                           CallModel false false b0 b0;
                           CallGetActivations false false b0 b0] /\
    training (model w') = false /\
    wbit (model w') = b0 /\ abit (model w') = b0.
Proof.
  intros Eb C HL.
  destruct (eval_batch_NameError bwl x y (fresh_meters bwl) w
              (bit_width_list_nonempty _ _ Eb) (fresh_meters_shaped bwl)
              C HL)
    as (top & b0 & w' & Et & Eh & E & Cs & Tm & Wm & Am).
  exists top, b0, w'. split; [exact Et|]. split; [exact Eh|].
  split; [|now repeat split].
  unfold forward, forward_meters. rewrite Eb. cbn [lift obind batches negb].
  rewrite E. reflexivity.
Qed.

(** X6: [forward] raises nothing but [ValueError], [IndexError],
    [NameError] and [ZeroDivisionError].  A [ValueError] comes from the
    parse of line 158, before the model has been touched; an
    [IndexError] only when some forward call returned fewer tensors than
    [get_num_layers() + 1]; a [NameError] only from the read of
    [epsilon] at line 188, in an evaluation pass over a loader that is
    not empty, for a network with at least one layer; a
    [ZeroDivisionError] only from [i % args.print_freq] at line 235, in
    a training pass over a loader that is not empty. *)
Theorem forward_raises_only_four_kinds (data_loader : list (Input * Target))
    (a : Args) (is_training : bool) (w w' : World) (e : exn) :
  forward data_loader a is_training w = Raised e w' ->
  (e = ValueError /\ w' = w /\
   Schedule.bit_width_list (bit_width_list a) = Raise ValueError) \/
  (e = IndexError /\ trace_too_short) \/
  (e = NameError /\ is_training = false /\ (1 <= get_num_layers)%nat /\
   data_loader <> []) \/
  (e = ZeroDivisionError /\ is_training = true /\ print_freq a = 0 /\
   data_loader <> []).
Proof. apply forward_raise. Qed.

Lemma forward_returns (data_loader : list (Input * Target)) (a : Args)
    (is_training : bool) (w : World) (bwl : list Z) :
  Schedule.bit_width_list (bit_width_list a) = Ok bwl ->
  traces_complete ->
  (is_training = true -> print_freq a <> 0) ->
  is_training = true \/ data_loader = [] \/ get_num_layers = 0%nat ->
  exists out w', forward data_loader a is_training w = Returned (out, w').
Proof.
  intros Eb C Hp Hr.
  destruct (forward data_loader a is_training w) as [[out w']|e w'] eqn:E;
    [now exists out, w'|].
  apply forward_raise in E
    as [(_ & _ & E)|[(_ & E)|[(_ & Et & HL & Hd)|(_ & Et & E0 & _)]]].
  - congruence.
  - now apply complete_not_short in E.
  - destruct Hr as [Hr|[Hr|Hr]]; [congruence|contradiction|lia].
  - now apply Hp in E0.
Qed.

(** X7: when the request parses, every forward call returns one tensor
    per layer and the output, and [--print-freq] is not zero in a
    training pass, [forward] returns exactly in these cases: in a
    training pass, over an empty loader, and for a network without
    layers.  An evaluation pass over a loader that is not empty, for a
    network with at least one layer, stops with [NameError]. *)
Theorem forward_returns_unless_epsilon_is_read
    (data_loader : list (Input * Target)) (a : Args) (is_training : bool)
    (w : World) (bwl : list Z) :
  Schedule.bit_width_list (bit_width_list a) = Ok bwl ->
  traces_complete ->
  (is_training = true -> print_freq a <> 0) ->
  (is_training = true \/ data_loader = [] \/ get_num_layers = 0%nat ->
   exists out w', forward data_loader a is_training w = Returned (out, w')) /\
  (is_training = false -> data_loader <> [] -> (1 <= get_num_layers)%nat ->
   exists w', forward data_loader a is_training w = Raised NameError w').
Proof.
  intros Eb C Hp. split.
  - now apply (forward_returns data_loader a is_training w bwl).
  - intros -> Hd HL. destruct data_loader as [|[x y] rest]; [contradiction|].
    destruct (forward_eval_NameError a bwl x y rest w Eb C HL)
      as (top & b0 & w' & _ & _ & E & _).
    now exists w'.
Qed.

Lemma train_batch_returns (bwl : list Z) (x : Input) (y : Target)
    (ms : list LevelMeters) (w : World) :
  traces_complete -> ms <> [] ->
  exists ms' w', train_batch bwl x y ms w = Returned (ms', w').
Proof.
  intros C Hne.
  destruct (train_batch bwl x y ms w) as [[ms' w']|e w'] eqn:E;
    [now exists ms', w'|].
  apply train_batch_raise in E as [_ [m Hm]]; [|exact Hne].
  apply empty_trace_too_short in Hm. now apply complete_not_short in Hm.
Qed.

Lemma batches_ignore_print_freq (n : Z) (a : Args) (bwl : list Z)
    (data_loader : list (Input * Target)) :
  forall i ms w,
    batches false (with_print_freq n a) bwl i data_loader ms w
    = batches false a bwl i data_loader ms w.
Proof.
  induction data_loader as [|[x y] rest IH]; intros i ms w; simpl;
    [reflexivity|].
  destruct (eval_batch bwl x y ms w) as [[ms1 w1]|e w1]; simpl;
    [apply IH|reflexivity].
Qed.

(** X8: with [--print-freq 0] a training pass over a loader that is not
    empty stops with [ZeroDivisionError] at line 235, after the whole of
    the first batch: its gradients have been applied by the one optimizer
    step, and the state at the raise is the one that batch leaves.  An
    evaluation pass never reads the option. *)
Theorem zero_print_freq_raises_after_first_step (a : Args) (bwl : list Z)
    (x : Input) (y : Target) (rest : list (Input * Target)) (w : World) :
  print_freq a = 0 ->
  Schedule.bit_width_list (bit_width_list a) = Ok bwl ->
  traces_complete ->
  (exists ms' w' cs,
     train_batch bwl x y (fresh_meters bwl) w = Returned (ms', w') /\
     forward ((x, y) :: rest) a true w = Raised ZeroDivisionError w' /\
     calls w' = calls w ++ cs /\ count_calls is_step cs = 1%nat) /\
  (forall n dl, forward dl (with_print_freq n a) false w
                = forward dl a false w).
Proof.
  intros Hp Eb C. split.
  - pose proof (fresh_meters_shaped bwl) as S0.
    pose proof (bit_width_list_nonempty _ _ Eb) as Hne.
    destruct (train_batch_returns bwl x y (fresh_meters bwl) w C)
      as (ms' & w' & E); [now apply (shaped_nonempty bwl)|].
    destruct (train_batch_returned _ _ _ _ _ _ _ E (proj1 S0))
      as (out_ref & outs & cs & _ & _ & Cs & _ & St & _).
    exists ms', w', cs. split; [exact E|]. split; [|now split].
    unfold forward, forward_meters. rewrite Eb. simpl. rewrite E. simpl.
    unfold print_check. rewrite Hp. reflexivity.
  - intros n dl. unfold forward, forward_meters. simpl.
    destruct (Schedule.bit_width_list (bit_width_list a)) as [l|e]; simpl;
      [|reflexivity].
    now rewrite batches_ignore_print_freq.
Qed.

End ForwardOutcome.

Lemma forward_raises_only_four_kinds_witness :
  exists w' : World (T := Toy.types),
    Toy.eval_pass_4_8 = Raised NameError w' /\
    ((NameError = ValueError /\ w' = Toy.w0 /\
      Schedule.bit_width_list (bit_width_list (Toy.args "4,8"))
        = Raise ValueError) \/
     (NameError = IndexError /\ trace_too_short (K := Toy.torch)) \/
     (NameError = NameError /\ false = false /\
      (1 <= get_num_layers (Torch := Toy.torch))%nat /\
      [(0%nat, 0%nat)] <> []) \/
     (NameError = ZeroDivisionError /\ false = true /\
      print_freq (Toy.args "4,8") = 0 /\ [(0%nat, 0%nat)] <> [])).
Proof.
  eexists. split; [vm_compute; reflexivity|].
  apply (forward_raises_only_four_kinds (K := Toy.torch)
           [(0%nat, 0%nat)] (Toy.args "4,8") false Toy.w0).
  vm_compute; reflexivity.
Defined.

Lemma forward_returns_unless_epsilon_is_read_witness :
  (exists out w',
     forward (K := Toy.torch) [(0%nat, 0%nat); (1%nat, 1%nat)]
       (Toy.args "8,4") true Toy.w0 = Returned (out, w')) /\
  (exists w',
     forward (K := Toy.torch) [(0%nat, 0%nat); (1%nat, 1%nat)]
       (Toy.args "8,4") false Toy.w0 = Raised NameError w').
Proof.
  split.
  - apply (forward_returns_unless_epsilon_is_read (K := Toy.torch)
             [(0%nat, 0%nat); (1%nat, 1%nat)] (Toy.args "8,4") true Toy.w0
             [4; 8]).
    + vm_compute; reflexivity.
    + exact toy_traces_complete.
    + intros _. discriminate.
    + left. reflexivity.
  - apply (forward_returns_unless_epsilon_is_read (K := Toy.torch)
             [(0%nat, 0%nat); (1%nat, 1%nat)] (Toy.args "8,4") false Toy.w0
             [4; 8]).
    + vm_compute; reflexivity.
    + exact toy_traces_complete.
    + discriminate.
    + reflexivity.
    + discriminate.
    + simpl. lia.
Defined.

Lemma zero_print_freq_raises_after_first_step_witness :
  (exists ms' w' cs,
     train_batch (T := Toy.types) (K := Toy.torch) [4; 8] 0%nat 0%nat
       (fresh_meters (K := Toy.torch) [4; 8]) Toy.w0 = Returned (ms', w') /\
     forward (T := Toy.types) (K := Toy.torch) [(0%nat, 0%nat); (1%nat, 1%nat)]
       (with_print_freq 0 (Toy.args "4,8")) true Toy.w0
       = Raised ZeroDivisionError w' /\
     calls w' = calls Toy.w0 ++ cs /\
     count_calls (T := Toy.types) is_step cs = 1%nat) /\
  (forall n dl,
     forward (T := Toy.types) (K := Toy.torch) dl
       (with_print_freq n (with_print_freq 0 (Toy.args "4,8"))) false Toy.w0
     = forward (T := Toy.types) (K := Toy.torch) dl
         (with_print_freq 0 (Toy.args "4,8")) false Toy.w0).
Proof.
  apply (zero_print_freq_raises_after_first_step
           (T := Toy.types) (K := Toy.torch)
           (with_print_freq 0 (Toy.args "4,8")) [4; 8] 0%nat 0%nat
           [(1%nat, 1%nat)] Toy.w0).
  - reflexivity.
  - vm_compute; reflexivity.
  - exact toy_traces_complete.
Defined.

(** * What a training pass leaves behind *)

Section PassEffects.
Context {T : Types} {K : Torch}.

Lemma combine_nonempty {A B : Type} (l : list A) (l' : list B) :
  length l' = length l -> l <> [] -> combine l l' <> [].
Proof. destruct l, l'; simpl; congruence. Qed.

Lemma train_batch_mode (bwl : list Z) (x : Input) (y : Target)
    (ms ms' : list LevelMeters) (w w' : World) :
  train_batch bwl x y ms w = Returned (ms', w') ->
  length ms = length bwl ->
  training (model w') = training (model w) /\
  exists top, PyList.last bwl = Ok top /\
    wbit (model w') = top /\ abit (model w') = top.
Proof.
  unfold train_batch. intros H L.
  destruct (do_zero_grad_inv w) as (wz & Ez & Cz & Mz & _ & _).
  rewrite Ez in H. clear Ez.
  destruct (set_bits_inv 32 wz) as (w0 & E0 & W0 & A0 & P0 & T0 & C0 & _).
  rewrite E0 in H. clear E0.
  destruct (do_get_activations true x w0) as [act_full w1] eqn:E1.
  apply do_get_activations_inv in E1 as (-> & C1 & P1 & T1 & W1 & A1 & _).
  destruct (PyList.last _) as [output|e] eqn:Eout; simpl in H; [|discriminate].
  destruct (do_backward_inv (criterion output y) w1) as (w2 & E2 & C2 & M2 & _).
  rewrite E2 in H. clear E2.
  destruct (accuracy (data output) y) as [prec1 prec5].
  destruct (PyList.update_last _ ms) as [ms1|e] eqn:Eu; simpl in H;
    [|discriminate].
  pose proof (update_last_length _ _ _ Eu) as L1.
  apply update_last_snoc in Eu as (front & r0 & -> & ->).
  destruct (train_levels _ _ _ _ _) as [[ms2 w3]|e w3] eqn:E3; simpl in H;
    [|discriminate].
  injection H as <- <-.
  pose proof (train_levels_returned _ _ _ _ _ _ _ E3) as (_ & _ & T3 & _).
  apply train_levels_grad in E3 as (_ & _ & _ & Hne & _).
  assert (Hb : bwl <> []).
  { intros ->. rewrite length_app in L. simpl in L. lia. }
  destruct Hne as (b & Eb & Hw & Ha).
  { apply combine_nonempty; [congruence|exact Hb]. }
  rewrite map_fst_zip in Eb by congruence.
  rewrite do_step_eq. cbn.
  split; [congruence|]. exists b. now repeat split.
Qed.

Lemma train_batches_mode (a : Args) (bwl : list Z)
    (data_loader : list (Input * Target)) :
  forall i ms w ms' w',
    batches true a bwl i data_loader ms w = Returned (ms', w') ->
    shaped bwl ms ->
    training (model w') = training (model w) /\
    (data_loader = [] -> w' = w) /\
    (data_loader <> [] ->
     exists top, PyList.last bwl = Ok top /\
       wbit (model w') = top /\ abit (model w') = top).
Proof.
  induction data_loader as [|[x y] rest IH]; intros i ms w ms' w' H S0;
    simpl in H.
  - injection H as <- <-. repeat split; congruence.
  - destruct (train_batch bwl x y ms w) as [[ms1 w1]|e w1] eqn:E;
      simpl in H; [|discriminate].
    destruct (print_check i a); simpl in H; [|discriminate].
    pose proof (train_batch_shaped _ _ _ _ _ _ _ E S0) as S1.
    destruct (train_batch_mode _ _ _ _ _ _ _ E (proj1 S0))
      as (Tm & top & Et & Hw & Ha).
    destruct (IH _ _ _ _ _ H S1) as (Tt & Hnil & Hne).
    split; [congruence|]. split; [discriminate|]. intros _.
    destruct rest as [|b rest'].
    + rewrite (Hnil eq_refl). now exists top.
    + apply Hne. discriminate.
Qed.

(** X13: [forward] never switches the model to training mode: a
    training pass that returns leaves the train/eval flag as the caller
    set it (line 107 of [main] sets it).  After a training pass over a
    loader that is not empty both bit-width attributes stand at the
    largest level of the sorted list, not at the 32 of its reference
    pass, and a training pass over an empty loader leaves the state as
    it was. *)
Theorem training_pass_leaves_mode_and_precision
    (data_loader : list (Input * Target)) (a : Args)
    (w w' : World) (out : ForwardOut) :
  forward data_loader a true w = Returned (out, w') ->
  training (model w') = training (model w) /\
  (data_loader = [] -> w' = w) /\
  (data_loader <> [] ->
   exists bwl top,
     Schedule.bit_width_list (bit_width_list a) = Ok bwl /\
     PyList.last bwl = Ok top /\
     wbit (model w') = top /\ abit (model w') = top).
Proof.
  unfold forward, forward_meters. intros H.
  destruct (Schedule.bit_width_list _) as [bwl|e] eqn:Eb; simpl in H;
    [|discriminate].
  destruct (batches _ _ _ _ _ _ _) as [[ms w1]|e w1] eqn:E; simpl in H;
    [|discriminate].
  injection H as _ <-.
  destruct (train_batches_mode _ _ _ _ _ _ _ _ E (fresh_meters_shaped bwl))
    as (Tt & Hnil & Hne).
  split; [exact Tt|]. split; [exact Hnil|]. intros Hd.
  destruct (Hne Hd) as (top & Et & Hw & Ha). now exists bwl, top.
Qed.

Lemma train_batches_calls (a : Args) (bwl : list Z)
    (data_loader : list (Input * Target)) :
  forall i ms w ms' w',
    batches true a bwl i data_loader ms w = Returned (ms', w') ->
    shaped bwl ms ->
    exists cs,
      calls w' = calls w ++ cs /\
      count_calls is_step cs = length data_loader /\
      count_calls is_backward cs
        = (length data_loader * S (length bwl))%nat.
Proof.
  induction data_loader as [|[x y] rest IH]; intros i ms w ms' w' H S0;
    simpl in H.
  - injection H as <- <-. exists []. now rewrite app_nil_r.
  - destruct (train_batch bwl x y ms w) as [[ms1 w1]|e w1] eqn:E;
      simpl in H; [|discriminate].
    destruct (print_check i a); simpl in H; [|discriminate].
    pose proof (train_batch_shaped _ _ _ _ _ _ _ E S0) as S1.
    destruct (train_batch_returned _ _ _ _ _ _ _ E (proj1 S0))
      as (out_ref & outs & cs1 & _ & F1 & C1 & B1 & St1 & _).
    destruct (IH _ _ _ _ _ H S1) as (cs2 & C2 & St2 & B2).
    exists (cs1 ++ cs2). split; [now rewrite C2, C1, app_assoc|].
    rewrite !count_calls_app, St1, St2, B2, count_backward_losses, B1.
    apply Forall2_length in F1. simpl. rewrite cascade_length, <- F1.
    split; reflexivity.
Qed.

Lemma forward_train_calls (data_loader : list (Input * Target)) (a : Args)
    (w w' : World) (out : ForwardOut) (bwl : list Z) :
  forward data_loader a true w = Returned (out, w') ->
  Schedule.bit_width_list (bit_width_list a) = Ok bwl ->
  exists cs,
    calls w' = calls w ++ cs /\
    count_calls is_step cs = length data_loader /\
    count_calls is_backward cs = (length data_loader * S (length bwl))%nat.
Proof.
  unfold forward, forward_meters. intros H Eb. rewrite Eb in H.
  cbn [lift obind] in H.
  destruct (batches _ _ _ _ _ _ _) as [[ms w1]|e w1] eqn:E; simpl in H;
    [|discriminate].
  injection H as _ <-.
  eapply train_batches_calls; [exact E|apply fresh_meters_shaped].
Qed.

(** X14: a training pass that returns has taken one optimizer step per
    batch of its loader and made, for each batch, one [backward] call
    more than the list has levels. *)
Theorem training_pass_steps_once_per_batch
    (data_loader : list (Input * Target)) (a : Args)
    (w w' : World) (out : ForwardOut) (bwl : list Z) :
  forward data_loader a true w = Returned (out, w') ->
  Schedule.bit_width_list (bit_width_list a) = Ok bwl ->
  exists cs,
    calls w' = calls w ++ cs /\
    count_calls is_step cs = length data_loader /\
    count_calls is_backward cs = (length data_loader * S (length bwl))%nat.
Proof. apply forward_train_calls. Qed.

End PassEffects.

(** * [main] and its epoch loop *)

Section MainOutcome.
Context {T : Types} {K : Torch}.

Lemma forward_returned_shape (data_loader : list (Input * Target)) (a : Args)
    (is_training : bool) (w w' : World) (out : ForwardOut) :
  forward data_loader a is_training w = Returned (out, w') ->
  exists bwl ms,
    Schedule.bit_width_list (bit_width_list a) = Ok bwl /\
    shaped bwl ms /\ out = averages is_training ms.
Proof.
  unfold forward, forward_meters. intros H.
  destruct (Schedule.bit_width_list _) as [bwl|e] eqn:Eb; simpl in H;
    [|discriminate].
  destruct (batches _ _ _ _ _ _ _) as [[ms w1]|e w1] eqn:E; simpl in H;
    [|discriminate].
  injection H as <- <-. exists bwl, ms.
  split; [reflexivity|]. split; [|reflexivity].
  eapply batches_returned_shaped; [exact E|apply fresh_meters_shaped].
Qed.

Lemma forward_returned_lengths (data_loader : list (Input * Target))
    (a : Args) (is_training : bool) (w w' : World) (out : ForwardOut) :
  forward data_loader a is_training w = Returned (out, w') ->
  exists bwl,
    Schedule.bit_width_list (bit_width_list a) = Ok bwl /\
    length (out_loss out) = length bwl /\
    length (out_prec1 out) = length bwl /\
    length (out_prec5 out) = length bwl /\
    (is_training = true -> out_slack out = None) /\
    (is_training = false ->
     exists table, out_slack out = Some table /\
       length table = length bwl /\
       Forall (fun row => length row = S get_num_layers) table).
Proof.
  intros H.
  apply forward_returned_shape in H as (bwl & ms & Eb & [L F] & ->).
  exists bwl. split; [exact Eb|].
  unfold averages, losses, top1, top5, slack_meter. cbn.
  rewrite !length_map. repeat split; try exact L.
  - now intros ->.
  - intros ->. eexists. split; [reflexivity|].
    rewrite !length_map. split; [exact L|].
    apply Forall_map, Forall_map.
    eapply Forall_impl; [|exact F]. intros r Hr. now rewrite length_map.
Qed.

Lemma nonempty_of_length {A B : Type} (l : list A) (l' : list B) :
  length l = length l' -> l' <> [] -> l <> [].
Proof. intros L Hne ->. destruct l'; [contradiction|discriminate]. Qed.

Lemma forward_returned_lasts (data_loader : list (Input * Target))
    (a : Args) (is_training : bool) (w w' : World) (out : ForwardOut) :
  forward data_loader a is_training w = Returned (out, w') ->
  exists l p1 p5,
    PyList.last (out_loss out) = Ok l /\
    PyList.last (out_prec1 out) = Ok p1 /\
    PyList.last (out_prec5 out) = Ok p5.
Proof.
  intros H.
  apply forward_returned_lengths in H as (bwl & Eb & L1 & L2 & L3 & _).
  apply bit_width_list_nonempty in Eb.
  destruct (PyListFacts.last_ok (out_loss out)) as [l El];
    [now apply (nonempty_of_length _ bwl)|].
  destruct (PyListFacts.last_ok (out_prec1 out)) as [p1 E1];
    [now apply (nonempty_of_length _ bwl)|].
  destruct (PyListFacts.last_ok (out_prec5 out)) as [p5 E5];
    [now apply (nonempty_of_length _ bwl)|].
  now exists l, p1, p5.
Qed.

(** X9: the lists a training pass returns hold one average per level of
    the parsed list, so their element at [-1] exists; it returns no
    slack table. *)
Theorem training_pass_returns_one_average_per_level
    (data_loader : list (Input * Target)) (a : Args)
    (w w' : World) (out : ForwardOut) :
  forward data_loader a true w = Returned (out, w') ->
  (exists bwl,
     Schedule.bit_width_list (bit_width_list a) = Ok bwl /\
     length (out_loss out) = length bwl /\
     length (out_prec1 out) = length bwl /\
     length (out_prec5 out) = length bwl) /\
  out_slack out = None /\
  exists l p1 p5,
    PyList.last (out_loss out) = Ok l /\
    PyList.last (out_prec1 out) = Ok p1 /\
    PyList.last (out_prec5 out) = Ok p5.
Proof.
  intros H.
  destruct (forward_returned_lengths _ _ _ _ _ _ H)
    as (bwl & Eb & L1 & L2 & L3 & Hs & _).
  split; [now exists bwl|]. split; [now apply Hs|].
  eapply forward_returned_lasts. exact H.
Qed.

Lemma py_range_empty (start stop : Z) :
  stop <= start -> py_range start stop = [].
Proof.
  intros H. unfold py_range.
  replace (Z.to_nat (stop - start)) with 0%nat by lia. reflexivity.
Qed.


(** X11: when [--epochs] does not exceed [--start-epoch] the loop of
    line 106 has no turn: [main] ends where the startup ends, and if that
    returns, nothing has been saved or logged and the model has not been
    called. *)
Theorem no_epoch_runs_when_start_reaches_epochs (a : Args)
    (train_loader val_loader : list (Input * Target)) :
  epochs a <= start_epoch a ->
  main a train_loader val_loader = startup a /\
  forall r, main a train_loader val_loader = Returned r ->
    saved r = [] /\ logged r = [] /\ calls (world r) = [] /\
    best_prec1 r = None.
Proof.
  intros H.
  assert (E : main a train_loader val_loader = startup a).
  { unfold main. rewrite py_range_empty by exact H.
    now destruct (startup a). }
  split; [exact E|]. intros r Hr. rewrite E in Hr. unfold startup in Hr.
  destruct (Schedule.bit_width_list (bit_width_list a)); simpl in Hr;
    [|discriminate].
  injection Hr as <-. now repeat split.
Qed.


End MainOutcome.

Lemma training_pass_leaves_mode_and_precision_witness :
  exists (out : ForwardOut (T := Toy.types)) (w' : World (T := Toy.types)),
    forward (K := Toy.torch) [(0%nat, 0%nat)] (Toy.args "4,8") true Toy.w0
      = Returned (out, w') /\
    training (model w') = training (model Toy.w0) /\
    ([(0%nat, 0%nat)] = [] -> w' = Toy.w0) /\
    ([(0%nat, 0%nat)] <> [] ->
     exists bwl top,
       Schedule.bit_width_list (bit_width_list (Toy.args "4,8")) = Ok bwl /\
       PyList.last bwl = Ok top /\
       wbit (model w') = top /\ abit (model w') = top).
Proof.
  eexists. eexists. split; [vm_compute; reflexivity|].
  eapply (training_pass_leaves_mode_and_precision (K := Toy.torch)
            [(0%nat, 0%nat)] (Toy.args "4,8") Toy.w0).
  vm_compute; reflexivity.
Defined.

Lemma training_pass_steps_once_per_batch_witness :
  exists (out : ForwardOut (T := Toy.types)) (w' : World (T := Toy.types)),
    forward (K := Toy.torch) [(0%nat, 0%nat); (2%nat, 2%nat)]
      (Toy.args "4,8") true Toy.w0 = Returned (out, w') /\
    exists cs,
      calls w' = calls Toy.w0 ++ cs /\
      count_calls is_step cs = 2%nat /\
      count_calls is_backward cs = (2 * 3)%nat.
Proof.
  eexists. eexists. split; [vm_compute; reflexivity|].
  eapply (training_pass_steps_once_per_batch (K := Toy.torch)
            [(0%nat, 0%nat); (2%nat, 2%nat)] (Toy.args "4,8") Toy.w0 _ _
            [4; 8]);
    vm_compute; reflexivity.
Defined.

Lemma training_pass_returns_one_average_per_level_witness :
  exists (out : ForwardOut (T := Toy.types)) (w' : World (T := Toy.types)),
    forward (K := Toy.torch) [(0%nat, 0%nat)] (Toy.args "4,8") true Toy.w0
      = Returned (out, w') /\
    (exists bwl,
       Schedule.bit_width_list (bit_width_list (Toy.args "4,8")) = Ok bwl /\
       length (out_loss out) = length bwl /\
       length (out_prec1 out) = length bwl /\
       length (out_prec5 out) = length bwl) /\
    out_slack out = None /\
    exists l p1 p5,
      PyList.last (out_loss out) = Ok l /\
      PyList.last (out_prec1 out) = Ok p1 /\
      PyList.last (out_prec5 out) = Ok p5.
Proof.
  eexists. eexists. split; [vm_compute; reflexivity|].
  eapply (training_pass_returns_one_average_per_level (K := Toy.torch)
            [(0%nat, 0%nat)] (Toy.args "4,8") Toy.w0).
  vm_compute; reflexivity.
Defined.

Lemma no_epoch_runs_when_start_reaches_epochs_witness :
  main (T := Toy.types) (K := Toy.torch) (mkArgs "4,8" 20 3 3 false false)
    [(0%nat, 0%nat)] [(1%nat, 1%nat)]
  = startup (T := Toy.types) (K := Toy.torch)
      (mkArgs "4,8" 20 3 3 false false) /\
  forall r,
    main (T := Toy.types) (K := Toy.torch) (mkArgs "4,8" 20 3 3 false false)
      [(0%nat, 0%nat)] [(1%nat, 1%nat)] = Returned r ->
    saved r = [] /\ logged r = [] /\ calls (world r) = [] /\
    best_prec1 r = None.
Proof.
  apply (no_epoch_runs_when_start_reaches_epochs
           (T := Toy.types) (K := Toy.torch)
           (mkArgs "4,8" 20 3 3 false false)
           [(0%nat, 0%nat)] [(1%nat, 1%nat)]).
  simpl. lia.
Defined.


(** * The best score as a running maximum *)

Section BestSoFar.
Variable V : Type.
Variable gt : V -> V -> bool.
Hypothesis gt_irrefl : forall a, gt a a = false.
Hypothesis gt_trans :
  forall a b c, gt a b = true -> gt b c = true -> gt a c = true.
Hypothesis gt_neg_trans :
  forall a b c, gt a b = false -> gt b c = false -> gt a c = false.

Lemma best_so_far_from (vs : list V) :
  forall (seen : list V) (b : V) (k : nat) (v : V),
    In b seen -> (forall u, In u seen -> gt u b = false) ->
    nth_error vs k = Some v ->
    (nth_error (best_flags gt (Some b) vs) k = Some true <->
     forall u, In u (seen ++ firstn k vs) -> gt v u = true) /\
    exists b', nth_error (best_scores gt (Some b) vs) k = Some b' /\
      In b' (seen ++ firstn (S k) vs) /\
      forall u, In u (seen ++ firstn (S k) vs) -> gt u b' = false.
Proof.
  induction vs as [|v0 vs IH]; intros seen b k v Hb Hmax Hk;
    [destruct k; discriminate|].
  assert (Hnew : In (py_max gt v0 b) (seen ++ [v0]) /\
                 forall u, In u (seen ++ [v0]) -> gt u (py_max gt v0 b) = false).
  { unfold py_max. destruct (gt b v0) eqn:E.
    - split; [apply in_or_app; now left|].
      intros u Hu. apply in_app_or in Hu as [Hu|[<-|[]]]; [now apply Hmax|].
      destruct (gt v0 b) eqn:E'; [|reflexivity].
      pose proof (gt_trans _ _ _ E E') as X.
      rewrite gt_irrefl in X. discriminate.
    - split; [apply in_or_app; right; now left|].
      intros u Hu. apply in_app_or in Hu as [Hu|[<-|[]]].
      + eapply gt_neg_trans; [apply Hmax; exact Hu|exact E].
      + apply gt_irrefl. }
  destruct k as [|k]; simpl in Hk.
  - injection Hk as ->. cbn [best_flags best_scores track_best fst snd nth_error
                              firstn].
    split.
    + rewrite app_nil_r. split.
      * intros H u Hu. injection H as H.
        destruct (gt v u) eqn:E; [reflexivity|].
        now rewrite (gt_neg_trans _ _ _ E (Hmax u Hu)) in H.
      * intros H. f_equal. now apply H.
    + exists (py_max gt v b). split; [reflexivity|exact Hnew].
  - cbn [best_flags best_scores track_best fst snd nth_error firstn].
    destruct Hnew as [Hin Hmax'].
    destruct (IH (seen ++ [v0]) (py_max gt v0 b) k v Hin Hmax' Hk)
      as [Hf (b' & Hs & Hin' & Hm')].
    rewrite <- !app_assoc in *. cbn [app] in *. split; [exact Hf|].
    exists b'. now repeat split.
Qed.

(** X15: for an order on the scores in which any two values compare (no
    NaN among them), the flag [is_best] of lines 119-124 is set exactly
    on the epochs whose validation top-1 exceeds that of every earlier
    epoch of the run, and the best score kept after an epoch is one of
    the values seen so far that none of them exceeds. *)
Theorem best_flag_marks_strict_records (vs : list V) (k : nat) (v : V) :
  nth_error vs k = Some v ->
  (nth_error (best_flags gt None vs) k = Some true <->
   forall u, In u (firstn k vs) -> gt v u = true) /\
  exists b, nth_error (best_scores gt None vs) k = Some b /\
    In b (firstn (S k) vs) /\
    forall u, In u (firstn (S k) vs) -> gt u b = false.
Proof.
  destruct vs as [|v0 vs]; intros Hk; [destruct k; discriminate|].
  destruct k as [|k]; simpl in Hk.
  - injection Hk as ->. cbn. split.
    + split; [intros _ u []|reflexivity].
    + exists v. split; [reflexivity|]. split; [now left|].
      intros u [<-|[]]. apply gt_irrefl.
  - cbn [best_flags best_scores track_best fst snd nth_error firstn].
    destruct (best_so_far_from vs [v0] v0 k v) as [Hf Hs];
      [now left|intros u [<-|[]]; apply gt_irrefl|exact Hk|].
    cbn [app] in *. now split.
Qed.

End BestSoFar.

Lemma best_flag_marks_strict_records_witness :
  nth_error [70; 72; 71; 73] 3%nat = Some 73 /\
  (nth_error (best_flags Z.gtb None [70; 72; 71; 73]) 3%nat = Some true <->
   forall u, In u (firstn 3 [70; 72; 71; 73]) -> Z.gtb 73 u = true) /\
  exists b, nth_error (best_scores Z.gtb None [70; 72; 71; 73]) 3%nat = Some b /\
    In b (firstn 4 [70; 72; 71; 73]) /\
    forall u, In u (firstn 4 [70; 72; 71; 73]) -> Z.gtb u b = false.
Proof.
  split; [reflexivity|].
  apply (best_flag_marks_strict_records Z Z.gtb).
  - intros a. rewrite Z.gtb_ltb. apply Z.ltb_irrefl.
  - intros a b c. rewrite !Z.gtb_ltb, !Z.ltb_lt. lia.
  - intros a b c. rewrite !Z.gtb_ltb, !Z.ltb_ge. lia.
  - reflexivity.
Defined.

(** * The start of a run: [--lr_decay], [--resume], [--pretrain] *)

Section StartFacts.
Context {T : Types} {K : Torch} {F : Files}.

Lemma mapM_int_raise (fs : list (list ascii)) (e : exn) :
  mapM PyStr.int fs = Raise e -> e = ValueError.
Proof.
  revert e. induction fs as [|f fs IH]; intros e E; simpl in E;
    [discriminate|].
  destruct (PyStr.int f) as [b|e1] eqn:Ef; simpl in E.
  - destruct (mapM PyStr.int fs) as [bs|e2]; simpl in E; [discriminate|].
    injection E as <-. now apply IH.
  - injection E as <-. now apply ParseFacts.int_raises_ValueError in Ef.
Qed.

Lemma checkpoint_file_raise (p : string) (e : exn) :
  checkpoint_file p = Raise e -> e = ValueError.
Proof.
  unfold checkpoint_file. destruct (isfile _); intros H; congruence.
Qed.

Lemma batches_ignore_start_epoch (is_training : bool) (n : Z) (a : Args)
    (bwl : list Z) (data_loader : list (Input * Target)) :
  forall i ms w,
    batches is_training (with_start_epoch n a) bwl i data_loader ms w
    = batches is_training a bwl i data_loader ms w.
Proof.
  induction data_loader as [|[x y] rest IH]; intros i ms w; simpl;
    [reflexivity|].
  destruct is_training; simpl.
  - destruct (train_batch bwl x y ms w) as [[ms1 w1]|e w1]; simpl;
      [|reflexivity].
    unfold print_check. simpl.
    destruct (print_freq a =? 0); simpl; [reflexivity|apply IH].
  - destruct (eval_batch bwl x y ms w) as [[ms1 w1]|e w1]; simpl;
      [apply IH|reflexivity].
Qed.

Lemma forward_ignores_start_epoch (data_loader : list (Input * Target))
    (n : Z) (a : Args) (is_training : bool) (w : World) :
  forward data_loader (with_start_epoch n a) is_training w
  = forward data_loader a is_training w.
Proof.
  unfold forward, forward_meters. simpl.
  destruct (Schedule.bit_width_list (bit_width_list a)) as [bwl|e]; simpl;
    [|reflexivity].
  now rewrite batches_ignore_start_epoch.
Qed.

Lemma epoch_loop_ignores_start_epoch (n : Z) (a : Args)
    (train_loader val_loader : list (Input * Target)) (es : list Z) :
  forall r,
    epoch_loop (with_start_epoch n a) train_loader val_loader es r
    = epoch_loop a train_loader val_loader es r.
Proof.
  induction es as [|e es IH]; intros r; simpl; [reflexivity|].
  assert (E : epoch_body (with_start_epoch n a) train_loader val_loader e r
              = epoch_body a train_loader val_loader e r).
  { unfold epoch_body. rewrite forward_ignores_start_epoch.
    destruct (in_run r (forward train_loader a true _)) as [[t1 w1]|e1 s1];
      cbn [obind snd]; [|reflexivity].
    rewrite forward_ignores_start_epoch.
    destruct (in_run r (forward train_loader a false _)) as [[t2 w2]|e2 s2];
      cbn [obind]; [|reflexivity].
    rewrite forward_ignores_start_epoch. reflexivity. }
  rewrite E.
  destruct (epoch_body a train_loader val_loader e r); simpl;
    [apply IH|reflexivity].
Qed.

(** X16: when [--resume] is given, [--pretrain] is never looked at: the
    run is the same whatever its value, also when the resume path is
    wrong and the pretrain path would have been right. *)
Theorem resume_takes_precedence_over_pretrain (sa : StartArgs) (p : string)
    (train_loader val_loader : list (Input * Target)) :
  given (resume sa) = Some p ->
  forall pre,
    main_full (with_pretrain pre sa) train_loader val_loader
    = main_full sa train_loader val_loader.
Proof.
  intros H pre. unfold main_full, startup_full.
  cbn [with_pretrain base lr_decay resume pretrain]. now rewrite H.
Qed.

(** X17: when neither option is given, where [None], the empty string
    and the string ['None'] all count as not given, and [--lr_decay]
    parses, the full start-up is the one of [main]. *)
Theorem start_without_resume_or_pretrain_is_main (sa : StartArgs)
    (decay : list Z) (train_loader val_loader : list (Input * Target)) :
  given (resume sa) = None -> given (pretrain sa) = None ->
  mapM PyStr.int (PyStr.split (lr_decay sa)) = Ok decay ->
  main_full sa train_loader val_loader
  = embed (main (base sa) train_loader val_loader).
Proof.
  intros Hr Hp Hd. unfold main_full, startup_full, main, startup.
  rewrite Hr, Hp, Hd.
  destruct (Schedule.bit_width_list (bit_width_list (base sa))); reflexivity.
Qed.

(** X18: once the request has parsed, the start-up fails with
    [ValueError] and nothing else: when [--lr_decay] does not parse,
    whatever the two paths are, and when the path of the option that
    counts, taken as [model_best.pth.tar] inside it if it is a
    directory, is no file.  In both cases the model has been built and
    no epoch has run. *)
Theorem startup_failures_raise_ValueError (sa : StartArgs) (bwl : list Z)
    (train_loader val_loader : list (Input * Target)) :
  Schedule.bit_width_list (bit_width_list (base sa)) = Ok bwl ->
  let built := Built (Schedule.bw_list bwl)
                     (new_model (Schedule.bw_list bwl)) in
  (forall e, mapM PyStr.int (PyStr.split (lr_decay sa)) = Raise e ->
     main_full sa train_loader val_loader = Raised ValueError built) /\
  (forall decay p e,
     mapM PyStr.int (PyStr.split (lr_decay sa)) = Ok decay ->
     given (resume sa) = Some p \/
     (given (resume sa) = None /\ given (pretrain sa) = Some p) ->
     checkpoint_file p = Raise e ->
     main_full sa train_loader val_loader = Raised ValueError built) /\
  (forall e s, main_full sa train_loader val_loader = Raised e s ->
     s = built -> e = ValueError).
Proof.
  intros Eb built. unfold main_full, startup_full. rewrite Eb.
  cbn [lift obind]. fold built. split; [|split].
  - intros e Hd. rewrite Hd. apply mapM_int_raise in Hd as ->. reflexivity.
  - intros decay p e Hd Hp Hc. rewrite Hd. cbn [lift obind].
    pose proof (checkpoint_file_raise _ _ Hc) as ->.
    destruct Hp as [Hr|[Hr Hp]].
    + rewrite Hr, Hc. reflexivity.
    + rewrite Hr, Hp, Hc. reflexivity.
  - intros e s H Hs. subst s.
    destruct (mapM PyStr.int _) as [decay|e0] eqn:Hd; cbn [lift obind] in H.
    2:{ injection H as <-. now apply mapM_int_raise in Hd. }
    assert (Hemb : forall es r,
              embed (epoch_loop (base sa) train_loader val_loader es r)
              <> Raised e built).
    { intros es r Hx.
      destruct (epoch_loop _ _ _ _ _) as [r'|e' [|r']]; discriminate. }
    destruct (given (resume sa)) as [p|].
    + destruct (checkpoint_file p) as [f|e0] eqn:Hc; cbn [lift obind] in H.
      * now apply Hemb in H.
      * injection H as <-. now apply checkpoint_file_raise in Hc.
    + destruct (given (pretrain sa)) as [p|].
      * destruct (checkpoint_file p) as [f|e0] eqn:Hc; cbn [lift obind] in H.
        -- now apply Hemb in H.
        -- injection H as <-. now apply checkpoint_file_raise in Hc.
      * now apply Hemb in H.
Qed.

(** X19: a run resumed from a checkpoint that exists takes its first
    epoch and its best score from the file, its weights by a strict load
    and its optimizer state from the stored one; [--start-epoch] is not
    read, so the run is the same whatever its value; and when the stored
    epoch has reached [--epochs] the run ends at once, with nothing
    trained or saved. *)
Theorem resumed_run_starts_from_stored_epoch (sa : StartArgs)
    (p f : string) (bwl decay : list Z)
    (train_loader val_loader : list (Input * Target)) :
  given (resume sa) = Some p ->
  checkpoint_file p = Ok f ->
  Schedule.bit_width_list (bit_width_list (base sa)) = Ok bwl ->
  mapM PyStr.int (PyStr.split (lr_decay sa)) = Ok decay ->
  exists r0,
    startup_full sa = Returned (st_epoch (torch_load f), r0) /\
    best_prec1 r0 = Some (st_best_prec1 (torch_load f)) /\
    model (world r0)
      = load_state_dict true (st_state_dict (torch_load f))
                        (new_model (Schedule.bw_list bwl)) /\
    opt (world r0)
      = resume_optimizer (new_optimizer (new_model (Schedule.bw_list bwl)))
                         (st_optimizer (torch_load f)) decay
                         (st_epoch (torch_load f)) /\
    (forall n,
       main_full (mkStartArgs (with_start_epoch n (base sa)) (lr_decay sa)
                              (resume sa) (pretrain sa))
                 train_loader val_loader
       = main_full sa train_loader val_loader) /\
    (epochs (base sa) <= st_epoch (torch_load f) ->
     main_full sa train_loader val_loader = Returned r0).
Proof.
  intros Hr Hc Eb Hd.
  assert (E : exists r0,
            startup_full sa = Returned (st_epoch (torch_load f), r0) /\
            best_prec1 r0 = Some (st_best_prec1 (torch_load f)) /\
            model (world r0)
              = load_state_dict true (st_state_dict (torch_load f))
                                (new_model (Schedule.bw_list bwl)) /\
            opt (world r0)
              = resume_optimizer
                  (new_optimizer (new_model (Schedule.bw_list bwl)))
                  (st_optimizer (torch_load f)) decay
                  (st_epoch (torch_load f))).
  { unfold startup_full. rewrite Eb, Hd, Hr, Hc. cbn [lift obind].
    eexists. split; [reflexivity|]. now repeat split. }
  destruct E as (r0 & E & Hb & Hm & Ho). exists r0.
  split; [exact E|]. split; [exact Hb|]. split; [exact Hm|].
  split; [exact Ho|]. split.
  - intros n. unfold main_full, startup_full.
    cbn [base lr_decay resume pretrain with_start_epoch bit_width_list
         epochs].
    rewrite Eb, Hd, Hr, Hc. cbn [lift obind fst snd].
    change (mkArgs (bit_width_list (base sa)) (print_freq (base sa)) n
                   (epochs (base sa)) (wandb_log (base sa))
                   (eval_constraint (base sa)))
      with (with_start_epoch n (base sa)).
    now rewrite epoch_loop_ignores_start_epoch.
  - intros Hle. unfold main_full. rewrite E. cbn [obind fst snd].
    unfold py_range.
    replace (Z.to_nat (epochs (base sa) - st_epoch (torch_load f)))
      with 0%nat by lia.
    reflexivity.
Qed.

(** X20: a start from a pretrained checkpoint that exists differs from a
    start without one in the weights only, which are loaded without the
    strict check: the first epoch is the one of [--start-epoch], there
    is no best score yet and the optimizer is the fresh one, whatever
    epoch, score and optimizer state the file holds. *)
Theorem pretrained_run_takes_weights_only (sa : StartArgs)
    (p f : string) (bwl decay : list Z) :
  given (resume sa) = None -> given (pretrain sa) = Some p ->
  checkpoint_file p = Ok f ->
  Schedule.bit_width_list (bit_width_list (base sa)) = Ok bwl ->
  mapM PyStr.int (PyStr.split (lr_decay sa)) = Ok decay ->
  exists r0 r1,
    startup_full sa = Returned (start_epoch (base sa), r0) /\
    startup_full (with_pretrain None sa)
      = Returned (start_epoch (base sa), r1) /\
    model (world r0)
      = load_state_dict false (st_state_dict (torch_load f))
                        (model (world r1)) /\
    opt (world r0) = opt (world r1) /\
    grad (world r0) = grad (world r1) /\
    best_prec1 r0 = None /\ best_prec1 r1 = None /\
    model_levels r0 = model_levels r1.
Proof.
  intros Hr Hpre Hc Eb Hd. unfold startup_full.
  cbn [with_pretrain base lr_decay resume pretrain given].
  rewrite Eb, Hd, Hr, Hpre, Hc. cbn [lift obind].
  eexists. eexists. split; [reflexivity|]. split; [reflexivity|].
  now repeat split.
Qed.

End StartFacts.

Lemma resume_takes_precedence_over_pretrain_witness :
  given (resume (ToyFiles.args (Some "nowhere"%string) None))
    = Some "nowhere"%string /\
  main_full (K := Toy.torch) (F := ToyFiles.files)
    (with_pretrain (Some "runs"%string)
                   (ToyFiles.args (Some "nowhere"%string) None))
    [(0%nat, 0%nat)] [(1%nat, 1%nat)]
  = main_full (K := Toy.torch) (F := ToyFiles.files)
      (ToyFiles.args (Some "nowhere"%string) None)
      [(0%nat, 0%nat)] [(1%nat, 1%nat)].
Proof.
  split; [reflexivity|].
  apply (resume_takes_precedence_over_pretrain
           (K := Toy.torch) (F := ToyFiles.files)
           (ToyFiles.args (Some "nowhere"%string) None) "nowhere"%string).
  reflexivity.
Defined.

Lemma start_without_resume_or_pretrain_is_main_witness :
  main_full (K := Toy.torch) (F := ToyFiles.files)
    (ToyFiles.args (Some "None"%string) (Some ""%string)) [(0%nat, 0%nat)] [(1%nat, 1%nat)]
  = embed (main (K := Toy.torch) (Toy.args "4,8")
                [(0%nat, 0%nat)] [(1%nat, 1%nat)]).
Proof.
  apply (start_without_resume_or_pretrain_is_main
           (K := Toy.torch) (F := ToyFiles.files)
           (ToyFiles.args (Some "None"%string) (Some ""%string)) [100; 150; 180]).
  - reflexivity.
  - reflexivity.
  - vm_compute; reflexivity.
Defined.

Lemma startup_failures_raise_ValueError_witness :
  Schedule.bit_width_list
    (bit_width_list (base (ToyFiles.args (Some "nowhere"%string) (Some "runs"%string))))
  = Ok [4; 8] /\
  main_full (K := Toy.torch) (F := ToyFiles.files)
    (ToyFiles.args (Some "nowhere"%string) (Some "runs"%string))
    [(0%nat, 0%nat)] [(1%nat, 1%nat)]
  = Raised ValueError
      (Built [4; 8; 32] (new_model (Torch := Toy.torch) [4; 8; 32])).
Proof.
  split; [vm_compute; reflexivity|].
  refine (proj1 (proj2
            (startup_failures_raise_ValueError
               (K := Toy.torch) (F := ToyFiles.files)
               (ToyFiles.args (Some "nowhere"%string) (Some "runs"%string)) [4; 8]
               [(0%nat, 0%nat)] [(1%nat, 1%nat)] _))
            [100; 150; 180] "nowhere"%string ValueError _ _ _).
  - vm_compute; reflexivity.
  - vm_compute; reflexivity.
  - left. reflexivity.
  - vm_compute; reflexivity.
Defined.

Lemma resumed_run_starts_from_stored_epoch_witness :
  exists r0,
    startup_full (K := Toy.torch) (F := ToyFiles.files)
      (ToyFiles.args (Some "runs"%string) None) = Returned (2, r0) /\
    best_prec1 r0 = Some (72 # 1) /\
    model (world r0) = mkModel (T := Toy.types) false 0 0 5%nat tt /\
    opt (world r0) = 9%nat /\
    (forall n,
       main_full (K := Toy.torch) (F := ToyFiles.files)
         (mkStartArgs (with_start_epoch n (Toy.args "4,8"))
                      "100,150,180"%string (Some "runs"%string) None)
         [(0%nat, 0%nat)] [(1%nat, 1%nat)]
       = main_full (K := Toy.torch) (F := ToyFiles.files)
           (ToyFiles.args (Some "runs"%string) None)
           [(0%nat, 0%nat)] [(1%nat, 1%nat)]) /\
    (3 <= 2 ->
     main_full (K := Toy.torch) (F := ToyFiles.files)
       (ToyFiles.args (Some "runs"%string) None)
       [(0%nat, 0%nat)] [(1%nat, 1%nat)] = Returned r0).
Proof.
  apply (resumed_run_starts_from_stored_epoch
           (K := Toy.torch) (F := ToyFiles.files)
           (ToyFiles.args (Some "runs"%string) None) "runs"%string
           "runs/model_best.pth.tar"%string [4; 8] [100; 150; 180]).
  - reflexivity.
  - vm_compute; reflexivity.
  - vm_compute; reflexivity.
  - vm_compute; reflexivity.
Defined.

Lemma pretrained_run_takes_weights_only_witness :
  exists r0 r1,
    startup_full (K := Toy.torch) (F := ToyFiles.files)
      (ToyFiles.args None (Some "runs"%string)) = Returned (0, r0) /\
    startup_full (K := Toy.torch) (F := ToyFiles.files)
      (with_pretrain None (ToyFiles.args None (Some "runs"%string)))
      = Returned (0, r1) /\
    model (world r0)
      = mkModel (T := Toy.types) (training (model (world r1)))
                (wbit (model (world r1))) (abit (model (world r1)))
                5%nat tt /\
    opt (world r0) = opt (world r1) /\
    grad (world r0) = grad (world r1) /\
    best_prec1 r0 = None /\ best_prec1 r1 = None /\
    model_levels r0 = model_levels r1.
Proof.
  apply (pretrained_run_takes_weights_only
           (K := Toy.torch) (F := ToyFiles.files)
           (ToyFiles.args None (Some "runs"%string)) "runs"%string
           "runs/model_best.pth.tar"%string [4; 8] [100; 150; 180]).
  - reflexivity.
  - reflexivity.
  - vm_compute; reflexivity.
  - vm_compute; reflexivity.
  - vm_compute; reflexivity.
Defined.
